(** * The Azure container-registry module, embedded and verified

    A shallow embedding of
    [lib/ansible/modules/cloud/azure/azure_rm_container_registry.py]
    (class [AzureContainerRegistry]) and the properties of its
    reconciliation procedure [exec_module].

    The module is glue around remote calls, so the embedding is a small
    state-and-error monad: the state is the module object ([self], with its
    [results] dictionary) together with the chronological list of remote
    calls issued so far; a computation ends by returning, by [self.fail]
    (which exits the process) or by an exception nobody catches.  The cloud
    provider is a parameter: each SDK entry point answers as a function of
    the calls that came before it. *)

From stdpp Require Import gmap strings list.

Set Default Proof Using "Type".
Local Open Scope string_scope.

(** ** Python values used by the module *)

(** A [tags] dictionary. *)
Abbreviation tag_map := (gmap string string).

(** Truthiness of an optional string: [None] and [""] are falsy. *)
Definition truthy_str (s : option string) : bool :=
  match s with
  | None => false
  | Some s => negb (String.eqb s "")
  end.

(** Truthiness of an optional dictionary: [None] and [{}] are falsy. *)
Definition truthy_tags (t : option tag_map) : bool :=
  match t with
  | None => false
  | Some m => negb (bool_decide (m = ∅))
  end.

(** Exceptions the SDK may raise; [str exc] is the message. *)
Inductive exn :=
| CloudError (msg : string)
| IndexError (msg : string)
| OtherException (msg : string).

Definition str (e : exn) : string :=
  match e with
  | CloudError m | IndexError m | OtherException m => m
  end.

(** ** SDK models *)

Inductive desired_state := present | absent.

Record ResourceGroup := { rg_location : string }.

(** [azure.mgmt...Registry], the fields [registry_obj_to_dict] reads. *)
Record Registry := {
  obj_id : string;
  obj_name : string;
  obj_type : string;
  obj_location : string;
  obj_login_server : string;
  obj_creation_date : Z;
  obj_provisioning_state : string;      (* provisioning_state.value *)
  obj_admin_user_enabled : bool;
  obj_storage_account_name : string;    (* storage_account.name *)
  obj_sku_name : string;                (* sku.name *)
  obj_tags : option tag_map
}.

Record StorageAccountParameters := {
  sa_name : option string;
  sa_access_key : string
}.

Record Sku := { sku : string }.

Record RegistryCreateParameters := {
  create_location : option string;
  create_sku : Sku;
  create_storage_account : StorageAccountParameters;
  create_admin_user_enabled : bool;
  create_tags : option tag_map
}.

(** [RegistryUpdateParameters()] starts with every field unset. *)
Record RegistryUpdateParameters := {
  upd_admin_user_enabled : option bool;
  upd_storage_account : option StorageAccountParameters;
  upd_tags : option tag_map
}.

Definition RegistryUpdateParameters_new : RegistryUpdateParameters :=
  {| upd_admin_user_enabled := None;
     upd_storage_account := None;
     upd_tags := None |}.

Record StorageAccountKey := { key_name : string; value : string }.
Record StorageAccountListKeysResult := { keys : list StorageAccountKey }.

(** The handle [registries.create] returns and [get_poller_result] waits on. *)
Record AzureOperationPoller := { operation_id : Z }.

(** The dictionary built by [registry_obj_to_dict] and [self_to_dict]. *)
Record account_dict := {
  dict_id : string;
  dict_name : string;
  dict_type : string;
  dict_location : option string;
  dict_login_server : string;
  dict_creation_date : Z;
  dict_provisioning_state : string;
  dict_admin_user_enabled : bool;
  dict_storage_account_name : option string;
  dict_sku_name : string;
  dict_tags : option tag_map
}.

(** What [results['state']] can hold: [None], the [dict()] that [__init__]
    puts there, or a registry dictionary. *)
Inductive state_value :=
| StNone
| StEmptyDict
| StDict (d : account_dict).

(** ** Remote calls *)

Inductive call :=
| ResourceGroupsGet (rg : string)
| RegistriesGet (rg nm : string)
| StorageAccountsListKeys (rg : string) (account : option string)
| RegistriesCreate (rg nm : string) (p : RegistryCreateParameters)
| PollerResult (p : AzureOperationPoller)
| RegistriesUpdate (rg nm : string) (p : RegistryUpdateParameters)
| RegistriesDelete (rg nm : string).

Definition is_create (c : call) : bool :=
  match c with RegistriesCreate _ _ _ => true | _ => false end.
Definition is_update (c : call) : bool :=
  match c with RegistriesUpdate _ _ _ => true | _ => false end.
Definition is_delete (c : call) : bool :=
  match c with RegistriesDelete _ _ => true | _ => false end.
Definition is_write (c : call) : bool :=
  is_create c || is_update c || is_delete c.
Definition is_registry_lookup (c : call) : bool :=
  match c with RegistriesGet _ _ => true | _ => false end.
Definition is_key_lookup (c : call) : bool :=
  match c with StorageAccountsListKeys _ _ => true | _ => false end.

(** Number of calls of one kind in a trace. *)
Definition count_calls (p : call -> bool) (tr : list call) : nat :=
  length (List.filter p tr).

(** An SDK call returns or raises. *)
Inductive sdk_result (A : Type) :=
| Returns (a : A)
| Throws (e : exn).
Arguments Returns {A} a.
Arguments Throws {A} e.

(** A helper of the base class returns or ends the run through [fail]. *)
Inductive helper_result (A : Type) :=
| HelperReturns (a : A)
| HelperFails (msg : string).
Arguments HelperReturns {A} a.
Arguments HelperFails {A} msg.

(** The collaborators of the module.  Every answer may depend on the calls
    issued before it, so a provider is an arbitrary deterministic remote
    world.

    Modelled from the spec: [get_resource_group] and [update_tags] are
    methods of the base class [AzureRMModuleBase], which is not part of the
    module's file.  The first is [ResolveResourceGroup(name) -> {location} |
    fails]; the second is [MergeTags(existing, requested) -> (changed,
    merged)]; in [update_tags requested existing] the first argument is the
    module parameter [tags], which the helper reads from the module, and the
    second the tags of the existing object. *)
Record Provider := {
  get_resource_group : list call -> string -> helper_result (option ResourceGroup);
  registries_get : list call -> string -> string -> sdk_result (option Registry);
  storage_accounts_list_keys :
    list call -> string -> option string -> sdk_result (option StorageAccountListKeysResult);
  registries_create :
    list call -> string -> string -> RegistryCreateParameters -> sdk_result AzureOperationPoller;
  poller_result : list call -> AzureOperationPoller -> sdk_result unit;
  registries_update :
    list call -> string -> string -> RegistryUpdateParameters -> sdk_result unit;
  registries_delete : list call -> string -> string -> sdk_result string;
  datetime_now : list call -> Z;
  update_tags : option tag_map -> option tag_map -> bool * tag_map
}.

(** ** The module object *)

(** The keyword arguments [exec_module] receives. *)
Record Params := {
  param_resource_group : string;
  param_name : string;
  param_state : desired_state;
  param_location : option string;
  param_storage_account_name : option string;
  param_admin_user_enabled : bool;
  param_sku_name : string;
  param_tags : option tag_map
}.

Record Self := {
  resource_group : string;
  name : string;
  state : desired_state;
  location : option string;
  storage_account_name : option string;
  admin_user_enabled : bool;
  sku_name : string;
  tags : option tag_map;
  check_mode : bool;
  results_changed : bool;       (* results['changed'] *)
  results_state : state_value   (* results['state'] *)
}.

Definition set_location (l : option string) (s : Self) : Self :=
  {| resource_group := resource_group s; name := name s; state := state s;
     location := l;
     storage_account_name := storage_account_name s;
     admin_user_enabled := admin_user_enabled s; sku_name := sku_name s;
     tags := tags s; check_mode := check_mode s;
     results_changed := results_changed s; results_state := results_state s |}.

Definition set_changed (b : bool) (s : Self) : Self :=
  {| resource_group := resource_group s; name := name s; state := state s;
     location := location s;
     storage_account_name := storage_account_name s;
     admin_user_enabled := admin_user_enabled s; sku_name := sku_name s;
     tags := tags s; check_mode := check_mode s;
     results_changed := b; results_state := results_state s |}.

Definition set_state (v : state_value) (s : Self) : Self :=
  {| resource_group := resource_group s; name := name s; state := state s;
     location := location s;
     storage_account_name := storage_account_name s;
     admin_user_enabled := admin_user_enabled s; sku_name := sku_name s;
     tags := tags s; check_mode := check_mode s;
     results_changed := results_changed s; results_state := v |}.

(** ** The monad *)

Record Env := { self : Self; calls : list call }.

Inductive outcome (A : Type) :=
| Ok (a : A)
| Failed (msg : string)     (* self.fail(msg): fail_json, the process exits *)
| Raised (e : exn).         (* an exception that reaches the top *)
Arguments Ok {A} a.
Arguments Failed {A} msg.
Arguments Raised {A} e.

Definition M (A : Type) : Type := Env -> outcome A * Env.

Definition ret {A} (a : A) : M A := fun e => (Ok a, e).

Definition bind {A B} (m : M A) (k : A -> M B) : M B :=
  fun e =>
    match m e with
    | (Ok a, e') => k a e'
    | (Failed msg, e') => (Failed msg, e')
    | (Raised x, e') => (Raised x, e')
    end.

Definition fail {A} (msg : string) : M A := fun e => (Failed msg, e).
Definition raise {A} (x : exn) : M A := fun e => (Raised x, e).

Definition get_self : M Self := fun e => (Ok (self e), e).
Definition modify_self (f : Self -> Self) : M unit :=
  fun e => (Ok tt, {| self := f (self e); calls := calls e |}).

(** Issue a remote call: the provider answers from the calls made so far,
    and the call is appended to the trace. *)
Definition remote {A} (c : call) (answer : list call -> A) : M A :=
  fun e => (Ok (answer (calls e)), {| self := self e; calls := calls e ++ [c] |}).

(** [self.log] writes to the module's debug log only. *)
Definition log (msg : string) : M unit := ret tt.

Declare Scope py_scope.
Delimit Scope py_scope with py.
Notation "x <- c ;; k" := (bind c (fun x => k))
  (at level 100, c at next level, right associativity) : py_scope.
Notation "c ;;; k" := (bind c (fun _ => k))
  (at level 100, right associativity) : py_scope.
Local Open Scope py_scope.

(** The two kinds of failure of the spec.

    Modelled from the spec: the module has one failure channel, [self.fail];
    the taxonomy [ConfigurationError] / [RemoteOperationError] is the spec's
    reading of its messages: "Parameter error: ..." for invalid input or an
    unresolved dependency, "Failed to ..." for a rejected operation. *)
Inductive error_kind := ConfigurationError | RemoteOperationError.

Definition kind_of_message (msg : string) : option error_kind :=
  if String.prefix "Parameter error: " msg then Some ConfigurationError
  else if String.prefix "Failed to " msg then Some RemoteOperationError
  else None.

Definition fails_with {A} (k : error_kind) (o : outcome A) : Prop :=
  match o with
  | Failed msg => kind_of_message msg = Some k
  | _ => False
  end.

(** ** The methods of [AzureContainerRegistry] *)

Definition option_to_state (d : option account_dict) : state_value :=
  match d with
  | None => StNone
  | Some d => StDict d
  end.

(** What [__init__] leaves behind; the attributes are placeholders that the
    [setattr] loop of [exec_module] overwrites before anything reads them. *)
Definition init (check : bool) : Self :=
  {| resource_group := ""; name := ""; state := present; location := None;
     storage_account_name := None; admin_user_enabled := false;
     sku_name := ""; tags := None;
     check_mode := check;
     results_changed := false;
     results_state := StEmptyDict |}.

Definition setattrs (kwargs : Params) (s : Self) : Self :=
  {| resource_group := param_resource_group kwargs;
     name := param_name kwargs;
     state := param_state kwargs;
     location := param_location kwargs;
     storage_account_name := param_storage_account_name kwargs;
     admin_user_enabled := param_admin_user_enabled kwargs;
     sku_name := param_sku_name kwargs;
     tags := param_tags kwargs;
     check_mode := check_mode s;
     results_changed := results_changed s;
     results_state := results_state s |}.

Section Methods.

Variable P : Provider.

Definition registry_obj_to_dict (registry_obj : Registry) : account_dict :=
  {| dict_id := obj_id registry_obj;
     dict_name := obj_name registry_obj;
     dict_type := obj_type registry_obj;
     dict_location := Some (obj_location registry_obj);
     dict_login_server := obj_login_server registry_obj;
     dict_creation_date := obj_creation_date registry_obj;
     dict_provisioning_state := obj_provisioning_state registry_obj;
     dict_admin_user_enabled := obj_admin_user_enabled registry_obj;
     dict_storage_account_name := Some (obj_storage_account_name registry_obj);
     dict_sku_name := obj_sku_name registry_obj;
     dict_tags :=
       if truthy_tags (obj_tags registry_obj) then obj_tags registry_obj else None |}.

Definition self_to_dict : M account_dict :=
  fun e =>
    let s := self e in
    (Ok {| dict_id := ".../Microsoft.ContainerRegistry/registries/" +:+ name s;
           dict_name := name s;
           dict_type := "Microsoft.ContainerRegistry/registries";
           dict_location := location s;
           dict_login_server := name s +:+ ".azurecr.io";
           dict_creation_date := datetime_now P (calls e);
           dict_provisioning_state := "Succeeded";
           dict_admin_user_enabled := admin_user_enabled s;
           dict_storage_account_name := storage_account_name s;
           dict_sku_name := sku_name s;
           dict_tags := if truthy_tags (tags s) then tags s else None |}, e).

Definition get_container_registry : M (option account_dict) :=
  s <- get_self ;;
  log ("Get properties for container registry " +:+ name s) ;;;
  r <- remote (RegistriesGet (resource_group s) (name s))
         (fun h => registries_get P h (resource_group s) (name s)) ;;
  registry_obj <-
    match r with
    | Returns o => ret o
    | Throws (CloudError _) => ret None          (* except CloudError: pass *)
    | Throws exc => raise exc
    end ;;
  match registry_obj with
  | Some o => ret (Some (registry_obj_to_dict o))
  | None => ret None
  end.

Definition get_storage_account_key : M string :=
  s <- get_self ;;
  r <- remote (StorageAccountsListKeys (resource_group s) (storage_account_name s))
         (fun h => storage_accounts_list_keys P h (resource_group s) (storage_account_name s)) ;;
  account_keys <-
    match r with
    | Returns k => ret k
    | Throws (CloudError _) => ret None          (* except CloudError: pass *)
    | Throws exc => raise exc
    end ;;
  match account_keys with
  | None => fail "Parameter error: A valid storage account is required."
  | Some account_keys =>
      match keys account_keys with               (* account_keys.keys[0].value *)
      | [] => raise (IndexError "list index out of range")
      | k :: _ => ret (value k)
      end
  end.

Definition delete_container_registry : M (option bool) :=
  s <- get_self ;;
  log ("Delete container registry " +:+ name s) ;;;
  if check_mode s then
    log "check_mode is true" ;;;
    modify_self (set_changed true) ;;;
    modify_self (set_state StNone) ;;;
    ret None
  else
    existing_registry <- get_container_registry ;;
    match existing_registry with
    | None =>
        modify_self (set_changed false) ;;;
        ret (Some true)
    | Some _ =>
        modify_self (set_changed true) ;;;
        (if negb (check_mode s) then
           r <- remote (RegistriesDelete (resource_group s) (name s))
                  (fun h => registries_delete P h (resource_group s) (name s)) ;;
           match r with
           | Returns status => log "delete status: " ;;; log status
           | Throws (CloudError m) =>
               fail ("Failed to delete the container registry: " +:+ m)
           | Throws exc => raise exc
           end
         else ret tt) ;;;
        ret (Some true)
    end.

Definition update_container_registry (registry_dictionary : account_dict) : M unit :=
  s <- get_self ;;
  log ("Evaluating if there is a need to update container registry " +:+ name s) ;;;
  match storage_account_name s with
  | None => fail "Parameter error: A valid storage account name is required."
  | Some _ => ret tt
  end ;;;
  let update_parameters := RegistryUpdateParameters_new in
  update_parameters <-
    (if bool_decide (admin_user_enabled s ≠ dict_admin_user_enabled registry_dictionary) then
       modify_self (set_changed true) ;;;
       ret {| upd_admin_user_enabled := Some (admin_user_enabled s);
              upd_storage_account := upd_storage_account update_parameters;
              upd_tags := upd_tags update_parameters |}
     else ret update_parameters) ;;
  update_parameters <-
    (if bool_decide (storage_account_name s ≠ dict_storage_account_name registry_dictionary) then
       modify_self (set_changed true) ;;;
       primary_key <- get_storage_account_key ;;
       let saparams := {| sa_name := storage_account_name s; sa_access_key := primary_key |} in
       ret {| upd_admin_user_enabled := upd_admin_user_enabled update_parameters;
              upd_storage_account := Some saparams;
              upd_tags := upd_tags update_parameters |}
     else ret update_parameters) ;;
  (* the merged tags are also stored back into registry_dictionary['tags'];
     the dictionary is read here only *)
  let '(changed_tags, merged) := update_tags P (tags s) (dict_tags registry_dictionary) in
  update_parameters <-
    (if changed_tags then
       modify_self (set_changed true) ;;;
       ret {| upd_admin_user_enabled := upd_admin_user_enabled update_parameters;
              upd_storage_account := upd_storage_account update_parameters;
              upd_tags := Some merged |}
     else ret update_parameters) ;;
  s' <- get_self ;;
  if negb (results_changed s') then
    log ("No changes detected for container registry " +:+ name s)
  else
    log ("Updating container registry " +:+ name s) ;;;
    if check_mode s then
      log "check_mode is true" ;;;
      response <- self_to_dict ;;
      modify_self (set_state (StDict response))
    else
      r <- remote (RegistriesUpdate (resource_group s) (name s) update_parameters)
             (fun h => registries_update P h (resource_group s) (name s) update_parameters) ;;
      match r with
      | Returns _ => ret tt
      | Throws exc => fail ("Failed to update container registry: " +:+ str exc)
      end ;;;
      modify_self (set_changed true) ;;;
      current <- get_container_registry ;;
      modify_self (set_state (option_to_state current)).

Definition create_container_registry : M unit :=
  s <- get_self ;;
  log ("Creating container registry " +:+ name s) ;;;
  if check_mode s then
    log "check_mode is true" ;;;
    response <- self_to_dict ;;
    modify_self (set_changed true) ;;;
    modify_self (set_state (StDict response))
  else
    match storage_account_name s with
    | None => fail "Parameter error: A valid storage account name is required."
    | Some _ => ret tt
    end ;;;
    primary_key <- get_storage_account_key ;;
    let saparams := {| sa_name := storage_account_name s; sa_access_key := primary_key |} in
    let registry_create_parameters :=
      {| create_location := location s;
         create_sku := {| sku := sku_name s |};
         create_storage_account := saparams;
         create_admin_user_enabled := admin_user_enabled s;
         create_tags := tags s |} in
    r <- remote (RegistriesCreate (resource_group s) (name s) registry_create_parameters)
           (fun h => registries_create P h (resource_group s) (name s) registry_create_parameters) ;;
    match r with
    | Returns poller =>
        w <- remote (PollerResult poller) (fun h => poller_result P h poller) ;;
        match w with
        | Returns _ => ret tt
        | Throws exc => fail ("Failed to create container registry: " +:+ str exc)
        end
    | Throws exc => fail ("Failed to create container registry: " +:+ str exc)
    end ;;;
    modify_self (set_changed true) ;;;
    current <- get_container_registry ;;
    modify_self (set_state (option_to_state current)).

(** [exec_module] returns [self.results]: the pair of [results['changed']]
    and [results['state']]. *)
Definition exec_module (kwargs : Params) : M (bool * state_value) :=
  modify_self (setattrs kwargs) ;;;
  s <- get_self ;;
  g <- remote (ResourceGroupsGet (resource_group s))
         (fun h => get_resource_group P h (resource_group s)) ;;
  rg <-
    match g with
    | HelperFails msg => fail msg
    | HelperReturns None => fail "Parameter error: An existing resource group is required"
    | HelperReturns (Some rg) => ret rg
    end ;;
  (if negb (truthy_str (location s)) then
     modify_self (set_location (Some (rg_location rg)))
   else ret tt) ;;;
  (if (String.length (name s) <? 5)%nat || (50 <? String.length (name s))%nat then
     fail "Parameter error: name length must be between 5 and 50 characters."
   else ret tt) ;;;
  match state s with
  | present =>
      response <- get_container_registry ;;
      match response with
      | None => create_container_registry
      | Some registry_dictionary => update_container_registry registry_dictionary
      end
  | absent =>
      delete_container_registry ;;; ret tt
  end ;;;
  s' <- get_self ;;
  ret (results_changed s', results_state s').

(** One invocation of the module: a fresh object, no call issued yet. *)
Definition reconcile (kwargs : Params) (check : bool) : outcome (bool * state_value) * Env :=
  exec_module kwargs {| self := init check; calls := [] |}.

End Methods.

(** ** Reading a run *)

(** The length rule of [exec_module]: [5 <= len(name) <= 50]. *)
Definition name_length_ok (nm : string) : Prop :=
  (5 <= String.length nm <= 50)%nat.

(** The resource-group lookup, the first call of every run, finds [g]. *)
Definition resource_group_resolves (P : Provider) (kwargs : Params) (g : ResourceGroup) : Prop :=
  get_resource_group P [] (param_resource_group kwargs) = HelperReturns (Some g).

(** The trace once both preconditions have passed. *)
Definition after_preconditions (kwargs : Params) : list call :=
  [ResourceGroupsGet (param_resource_group kwargs)].

(** The answer of the provider to the registry lookup of [exec_module] and
    of [delete_container_registry]. *)
Definition lookup_answer (P : Provider) (kwargs : Params) : sdk_result (option Registry) :=
  registries_get P (after_preconditions kwargs)
    (param_resource_group kwargs) (param_name kwargs).

(** [get_container_registry] yields [None]: the SDK returned nothing, or
    raised the [CloudError] that the method swallows. *)
Definition lookup_is_null (r : sdk_result (option Registry)) : Prop :=
  r = Returns None \/ exists m, r = Throws (CloudError m).

(** The trace after the preconditions and the registry lookup. *)
Definition after_lookup (kwargs : Params) : list call :=
  after_preconditions kwargs ++
  [RegistriesGet (param_resource_group kwargs) (param_name kwargs)].

(** The answer to [storage_accounts.list_keys] on the create path. *)
Definition key_answer (P : Provider) (kwargs : Params)
  : sdk_result (option StorageAccountListKeysResult) :=
  storage_accounts_list_keys P (after_lookup kwargs)
    (param_resource_group kwargs) (param_storage_account_name kwargs).

(** [account_keys] stays [None] in [get_storage_account_key]. *)
Definition keys_are_null (r : sdk_result (option StorageAccountListKeysResult)) : Prop :=
  r = Returns None \/ exists m, r = Throws (CloudError m).

(** Modelled from the spec: the tag merge of section 4.1, which stands for
    the base-class helper [update_tags]: every requested key overwrites or
    adds, existing keys that are not requested stay; [changed] tells whether
    the merged tags differ from the existing ones. *)
Definition MergeTags (requested existing : option tag_map) : bool * tag_map :=
  let old := default ∅ existing in
  let merged := default ∅ requested ∪ old in
  (bool_decide (merged ≠ old), merged).

(** A provider whose answers do not depend on the history. *)
Definition scripted
    (rg : helper_result (option ResourceGroup))
    (reg : sdk_result (option Registry))
    (ks : sdk_result (option StorageAccountListKeysResult))
    (del : sdk_result string) : Provider :=
  {| get_resource_group := fun _ _ => rg;
     registries_get := fun _ _ _ => reg;
     storage_accounts_list_keys := fun _ _ _ => ks;
     registries_create := fun _ _ _ _ => Returns {| operation_id := 1 |};
     poller_result := fun _ _ => Returns tt;
     registries_update := fun _ _ _ _ => Returns tt;
     registries_delete := fun _ _ _ => del;
     datetime_now := fun _ => 0%Z;
     update_tags := MergeTags |}.

Definition westus : helper_result (option ResourceGroup) :=
  HelperReturns (Some {| rg_location := "westus" |}).

(** The registry of the examples in the module's documentation. *)
Definition myregistry_params (st : desired_state) (account : option string)
    (admin : bool) (t : option tag_map) : Params :=
  {| param_resource_group := "myresourcegroup";
     param_name := "myregistry";
     param_state := st;
     param_location := Some "westus";
     param_storage_account_name := account;
     param_admin_user_enabled := admin;
     param_sku_name := "Basic";
     param_tags := t |}.

Definition myregistry_obj (admin : bool) (t : option tag_map) : Registry :=
  {| obj_id := "/subscriptions/0/resourceGroups/myresourcegroup/providers/Microsoft.ContainerRegistry/registries/myregistry";
     obj_name := "myregistry";
     obj_type := "Microsoft.ContainerRegistry/registries";
     obj_location := "westus";
     obj_login_server := "myregistry.azurecr.io";
     obj_creation_date := 1500000000%Z;
     obj_provisioning_state := "Succeeded";
     obj_admin_user_enabled := admin;
     obj_storage_account_name := "mystorageaccount";
     obj_sku_name := "Basic";
     obj_tags := t |}.

Definition one_key : sdk_result (option StorageAccountListKeysResult) :=
  Returns (Some {| keys := [ {| key_name := "key1"; value := "c2VjcmV0" |} ] |}).

(** The concrete runs used below. *)

Definition dev_tags : tag_map := {[ "env" := "dev" ]}.

(** An existing registry that already matches the request. *)
Definition settled_provider : Provider :=
  scripted westus (Returns (Some (myregistry_obj false None))) one_key (Returns "ok").
Definition settled_params : Params :=
  myregistry_params present (Some "mystorageaccount") false None.

(** No registry under that name. *)
Definition empty_provider : Provider :=
  scripted westus (Returns None) one_key (Returns "ok").
Definition delete_params : Params :=
  myregistry_params absent None false None.

(** A registry exists and the delete is accepted. *)
Definition populated_provider : Provider :=
  scripted westus (Returns (Some (myregistry_obj true None))) one_key (Returns "ok").

(** A name of three characters. *)
Definition short_name_params : Params :=
  {| param_resource_group := "myresourcegroup";
     param_name := "abc";
     param_state := present;
     param_location := None;
     param_storage_account_name := Some "mystorageaccount";
     param_admin_user_enabled := false;
     param_sku_name := "Basic";
     param_tags := None |}.

(** The update scenario of the spec: admin user on, same storage account,
    no tags; the request turns the admin user off and asks for [env: dev]. *)
Definition scenario_params : Params :=
  myregistry_params present (Some "mystorageaccount") false (Some dev_tags).

(** The storage account has no key, or cannot be listed. *)
Definition keyless_provider : Provider :=
  scripted westus (Returns None) (Returns (Some {| keys := [] |})) (Returns "ok").
Definition unlisted_provider : Provider :=
  scripted westus (Returns None) (Throws (CloudError "StorageAccountNotFound")) (Returns "ok").
Definition create_params (account : option string) : Params :=
  myregistry_params present account false (Some dev_tags).

(** A world in which the registry exists once a create call was made, and
    whose storage service hands out a key for whatever name it is asked. *)
Definition creating_provider : Provider :=
  {| get_resource_group := fun _ _ => westus;
     registries_get := fun h _ _ =>
       if existsb is_create h
       then Returns (Some (myregistry_obj false (Some dev_tags)))
       else Returns None;
     storage_accounts_list_keys := fun _ _ _ => one_key;
     registries_create := fun _ _ _ _ => Returns {| operation_id := 1 |};
     poller_result := fun _ _ => Returns tt;
     registries_update := fun _ _ _ _ => Returns tt;
     registries_delete := fun _ _ _ => Returns "ok";
     datetime_now := fun _ => 0%Z;
     update_tags := MergeTags |}.

(** A world whose storage client refuses the account name before any
    request is sent, with an exception that is not a [CloudError]. *)
Definition validating_provider : Provider :=
  scripted westus (Returns None)
    (Throws (OtherException "Parameter 'account_name' must have length greater than 3."))
    (Returns "ok").

(** The module object on the create path, when the key is about to be
    fetched. *)
Definition create_env : Env :=
  {| self := setattrs (create_params (Some "mystorageaccount")) (init false);
     calls := after_lookup (create_params (Some "mystorageaccount")) |}.

(** ** Reading the create and update paths *)

(** [self.location] after the defaulting step of [exec_module]. *)
Definition defaulted_location (kwargs : Params) (g : ResourceGroup) : option string :=
  if truthy_str (param_location kwargs) then param_location kwargs
  else Some (rg_location g).

(** The [RegistryCreateParameters] of a request, given the access key. *)
Definition create_parameters (kwargs : Params) (g : ResourceGroup) (key : string)
  : RegistryCreateParameters :=
  {| create_location := defaulted_location kwargs g;
     create_sku := {| sku := param_sku_name kwargs |};
     create_storage_account :=
       {| sa_name := param_storage_account_name kwargs; sa_access_key := key |};
     create_admin_user_enabled := param_admin_user_enabled kwargs;
     create_tags := param_tags kwargs |}.

(** The three comparisons of [update_container_registry] against the
    registry [o] that was found. *)
Definition admin_differs (kwargs : Params) (o : Registry) : bool :=
  bool_decide (param_admin_user_enabled kwargs ≠ obj_admin_user_enabled o).
Definition account_differs (kwargs : Params) (o : Registry) : bool :=
  bool_decide (param_storage_account_name kwargs ≠ Some (obj_storage_account_name o)).
Definition tags_differ (P : Provider) (kwargs : Params) (o : Registry) : bool :=
  fst (update_tags P (param_tags kwargs) (dict_tags (registry_obj_to_dict o))).

Definition differs (P : Provider) (kwargs : Params) (o : Registry) : bool :=
  admin_differs kwargs o || account_differs kwargs o || tags_differ P kwargs o.

(** The update parameters with exactly the fields that differ set. *)
Definition update_delta (P : Provider) (kwargs : Params) (o : Registry) (key : string)
  : RegistryUpdateParameters :=
  {| upd_admin_user_enabled :=
       if admin_differs kwargs o then Some (param_admin_user_enabled kwargs) else None;
     upd_storage_account :=
       if account_differs kwargs o
       then Some {| sa_name := param_storage_account_name kwargs; sa_access_key := key |}
       else None;
     upd_tags :=
       if tags_differ P kwargs o
       then Some (snd (update_tags P (param_tags kwargs) (dict_tags (registry_obj_to_dict o))))
       else None |}.

(** The trace of the update path up to the update call: the key is listed
    when the storage account differs. *)
Definition before_update (kwargs : Params) (o : Registry) : list call :=
  after_lookup kwargs ++
  (if account_differs kwargs o
   then [StorageAccountsListKeys (param_resource_group kwargs)
           (param_storage_account_name kwargs)]
   else []).

(** What a run stores after a write: the registry fetched again. *)
Definition refetched (r : sdk_result (option Registry)) : outcome (bool * state_value) :=
  match r with
  | Returns (Some o) => Ok (true, StDict (registry_obj_to_dict o))
  | Returns None => Ok (true, StNone)
  | Throws (CloudError _) => Ok (true, StNone)
  | Throws exc => Raised exc
  end.

(** A world that rejects every create and update. *)
Definition rejecting_provider : Provider :=
  {| get_resource_group := fun _ _ => westus;
     registries_get := fun _ _ _ => Returns None;
     storage_accounts_list_keys := fun _ _ _ => one_key;
     registries_create := fun _ _ _ _ => Throws (CloudError "RegistryNameNotAvailable");
     poller_result := fun _ _ => Returns tt;
     registries_update := fun _ _ _ _ => Throws (CloudError "Conflict");
     registries_delete := fun _ _ _ => Returns "ok";
     datetime_now := fun _ => 0%Z;
     update_tags := MergeTags |}.

(** A world without the resource group, and one whose registry service is
    down. *)
Definition groupless_provider : Provider :=
  scripted (HelperReturns None) (Returns None) one_key (Returns "ok").
Definition broken_provider : Provider :=
  scripted westus (Throws (OtherException "Connection aborted.")) one_key (Returns "ok").

(** A request that moves the existing registry to another storage account. *)
Definition move_params : Params :=
  myregistry_params present (Some "otheraccount") true None.

(** A world with the registry in place whose storage service does not know
    the account it is asked about. *)
Definition orphaned_provider : Provider :=
  scripted westus (Returns (Some (myregistry_obj true None)))
    (Throws (CloudError "ResourceNotFound")) (Returns "ok").

(** A request with an empty tags dictionary, and one without a storage
    account for a registry that exists. *)
Definition untagged_params : Params :=
  myregistry_params present (Some "mystorageaccount") false (Some ∅).
Definition accountless_params : Params :=
  myregistry_params present None true None.

(** * Properties *)

Lemma name_check_passes nm :
  name_length_ok nm ->
  (String.length nm <? 5)%nat || (50 <? String.length nm)%nat = false.
Proof.
  intros [Hlo Hhi]. apply orb_false_iff. split; apply Nat.ltb_ge; lia.
Qed.

Lemma name_check_fails nm :
  (String.length nm < 5 \/ 50 < String.length nm)%nat ->
  (String.length nm <? 5)%nat || (50 <? String.length nm)%nat = true.
Proof.
  intros H. apply orb_true_iff.
  destruct H; [left | right]; apply Nat.ltb_lt; lia.
Qed.

Lemma count_calls_app p tr1 tr2 :
  count_calls p (tr1 ++ tr2) = (count_calls p tr1 + count_calls p tr2)%nat.
Proof.
  unfold count_calls. by rewrite List.filter_app, length_app.
Qed.

Lemma count_calls_one p c :
  count_calls p [c] = if p c then 1%nat else 0%nat.
Proof. unfold count_calls. cbn. by destruct (p c). Qed.

Ltac unfold_module :=
  unfold reconcile, exec_module, delete_container_registry,
    create_container_registry, update_container_registry,
    get_storage_account_key, get_container_registry, self_to_dict,
    bind, modify_self, get_self, remote, log, ret, fail, raise.

Ltac simp :=
  cbn -[Nat.ltb String.length truthy_str truthy_tags String.append] in *.

(** The same, leaving the trace and its counts folded. *)
Ltac simp_calls :=
  cbn -[Nat.ltb String.length truthy_str truthy_tags String.append
        count_calls app] in *.

(** Run [exec_module] up to the branch on [state]. *)
Ltac pass_preconditions Hrg Hnm :=
  unfold_module; simp;
  unfold resource_group_resolves in Hrg; rewrite Hrg; simp;
  rewrite (name_check_passes _ Hnm);
  match goal with
  | |- context [truthy_str ?l] => destruct (truthy_str l)
  end; simp.

(** Feed the provider's answer [H] to the run. *)
Ltac use_answer H :=
  unfold lookup_answer, key_answer, after_lookup, after_preconditions in H;
  simp; rewrite H; simp.

(** ** The unchanged registry *)

(** On the update path with nothing to change, [update_container_registry]
    returns before anything is stored in [results['state']]: the run ends
    with [changed = False] and the [dict()] of [__init__]. *)
Lemma update_without_change P kw check g o :
  param_state kw = present ->
  resource_group_resolves P kw g ->
  name_length_ok (param_name kw) ->
  lookup_answer P kw = Returns (Some o) ->
  param_admin_user_enabled kw = obj_admin_user_enabled o ->
  param_storage_account_name kw = Some (obj_storage_account_name o) ->
  fst (update_tags P (param_tags kw) (dict_tags (registry_obj_to_dict o))) = false ->
  fst (reconcile P kw check) = Ok (false, StEmptyDict) /\
  calls (snd (reconcile P kw check)) = after_lookup kw.
Proof.
  intros Hst Hrg Hnm Hlk Hadm Hsa Htags.
  pass_preconditions Hrg Hnm; rewrite Hst; simp; use_answer Hlk;
    rewrite Hsa, Hadm; simp;
    rewrite !bool_decide_eq_false_2 by (intros Hne; by apply Hne); simp;
    destruct (update_tags P _ _) as [chg merged]; simp; subst chg; done.
Qed.

(** C1.  An invocation with state=present finds a registry whose
    [admin_user_enabled] and storage account equal the request and whose
    tags need no change.  The run reports [changed = false] and issues no
    write call, but the result it returns is the empty dictionary that
    [__init__] stored in [results['state']], not the record of the existing
    registry. *)
Theorem C1_unchanged_registry_returns_empty_state :
  param_state settled_params = present /\
  lookup_answer settled_provider settled_params = Returns (Some (myregistry_obj false None)) /\
  param_admin_user_enabled settled_params = obj_admin_user_enabled (myregistry_obj false None) /\
  param_storage_account_name settled_params
    = Some (obj_storage_account_name (myregistry_obj false None)) /\
  fst (update_tags settled_provider (param_tags settled_params)
         (dict_tags (registry_obj_to_dict (myregistry_obj false None)))) = false /\
  fst (reconcile settled_provider settled_params false) = Ok (false, StEmptyDict) /\
  fst (reconcile settled_provider settled_params false)
    <> Ok (false, StDict (registry_obj_to_dict (myregistry_obj false None))) /\
  count_calls is_write (calls (snd (reconcile settled_provider settled_params false))) = 0%nat.
Proof.
  repeat split; try (vm_compute; reflexivity).
  vm_compute. discriminate.
Qed.

(** ** Deleting *)

(** C2 as stated fails: with state=absent, no dry run and no registry, the
    result is not null and the run has issued two remote calls, not one. *)
Lemma C2_absent_missing_counterexample :
  param_state delete_params = absent /\
  lookup_answer empty_provider delete_params = Returns None /\
  fst (reconcile empty_provider delete_params false) <> Ok (false, StNone) /\
  length (calls (snd (reconcile empty_provider delete_params false))) <> 1%nat.
Proof.
  repeat split; try (vm_compute; reflexivity); vm_compute; discriminate.
Qed.

(** C2 (amended).  For every invocation with state=absent, not in dry run,
    whose preconditions pass and whose registry lookup yields null:
    [changed] is false, the result is the empty dictionary [results['state']]
    started with, and the remote calls are exactly the resource-group lookup
    followed by one registry lookup: two calls in total, no write call. *)
Theorem C2_absent_missing_registry P kw g :
  param_state kw = absent ->
  resource_group_resolves P kw g ->
  name_length_ok (param_name kw) ->
  lookup_is_null (lookup_answer P kw) ->
  fst (reconcile P kw false) = Ok (false, StEmptyDict) /\
  calls (snd (reconcile P kw false))
    = [ResourceGroupsGet (param_resource_group kw);
       RegistriesGet (param_resource_group kw) (param_name kw)] /\
  count_calls is_registry_lookup (calls (snd (reconcile P kw false))) = 1%nat /\
  count_calls is_write (calls (snd (reconcile P kw false))) = 0%nat.
Proof.
  intros Hst Hrg Hnm Hlk.
  pass_preconditions Hrg Hnm; rewrite Hst; simp;
    destruct Hlk as [H | [m H]]; use_answer H; done.
Qed.

Lemma C2_absent_missing_registry_witness :
  param_state delete_params = absent /\
  resource_group_resolves empty_provider delete_params {| rg_location := "westus" |} /\
  name_length_ok (param_name delete_params) /\
  lookup_is_null (lookup_answer empty_provider delete_params) /\
  fst (reconcile empty_provider delete_params false) = Ok (false, StEmptyDict) /\
  calls (snd (reconcile empty_provider delete_params false))
    = [ResourceGroupsGet "myresourcegroup"; RegistriesGet "myresourcegroup" "myregistry"].
Proof.
  assert (Hst : param_state delete_params = absent) by reflexivity.
  assert (Hrg : resource_group_resolves empty_provider delete_params
                  {| rg_location := "westus" |}) by reflexivity.
  assert (Hnm : name_length_ok (param_name delete_params)) by (vm_compute; lia).
  assert (Hlk : lookup_is_null (lookup_answer empty_provider delete_params))
    by (left; reflexivity).
  destruct (C2_absent_missing_registry empty_provider delete_params _ Hst Hrg Hnm Hlk)
    as (Hres & Hcalls & _).
  exact (conj Hst (conj Hrg (conj Hnm (conj Hlk (conj Hres Hcalls))))).
Defined.

(** ** The name-length rule *)

(** C3 as stated fails: the resource group is fetched before the name is
    measured, so a remote call has been issued when the run fails. *)
Lemma C3_name_length_counterexample :
  (String.length (param_name short_name_params) < 5)%nat /\
  fails_with ConfigurationError (fst (reconcile empty_provider short_name_params false)) /\
  calls (snd (reconcile empty_provider short_name_params false))
    = [ResourceGroupsGet "myresourcegroup"] /\
  calls (snd (reconcile empty_provider short_name_params false)) <> [].
Proof.
  repeat split; try (vm_compute; (reflexivity || lia)); vm_compute; discriminate.
Qed.

(** C3 (amended).  For every spec whose name has fewer than 5 or more than
    50 characters the run fails, and the one remote call issued before it
    fails is the resource-group lookup: no registry lookup, no key lookup
    and no write.  When the resource group resolves, the failure is the
    name-length [ConfigurationError]; when the lookup returns nothing it is
    the resource-group [ConfigurationError]; when the helper ends the run
    itself, the failure is the helper's. *)
Theorem C3_name_length_rejected P kw check :
  (String.length (param_name kw) < 5 \/ 50 < String.length (param_name kw))%nat ->
  calls (snd (reconcile P kw check)) = [ResourceGroupsGet (param_resource_group kw)] /\
  match get_resource_group P [] (param_resource_group kw) with
  | HelperReturns (Some _) =>
      fst (reconcile P kw check)
        = Failed "Parameter error: name length must be between 5 and 50 characters."
      /\ fails_with ConfigurationError (fst (reconcile P kw check))
  | HelperReturns None =>
      fst (reconcile P kw check)
        = Failed "Parameter error: An existing resource group is required"
      /\ fails_with ConfigurationError (fst (reconcile P kw check))
  | HelperFails msg => fst (reconcile P kw check) = Failed msg
  end.
Proof.
  intros Hlen. unfold_module; simp.
  destruct (get_resource_group P [] (param_resource_group kw)) as [[g|]|msg]; simp.
  - rewrite (name_check_fails _ Hlen).
    destruct (truthy_str (param_location kw)); simp; done.
  - done.
  - done.
Qed.

Lemma C3_name_length_rejected_witness :
  (String.length (param_name short_name_params) < 5
   \/ 50 < String.length (param_name short_name_params))%nat /\
  calls (snd (reconcile empty_provider short_name_params false))
    = [ResourceGroupsGet "myresourcegroup"].
Proof.
  assert (Hlen : (String.length (param_name short_name_params) < 5
                  \/ 50 < String.length (param_name short_name_params))%nat)
    by (left; vm_compute; lia).
  split; [exact Hlen |].
  exact (proj1 (C3_name_length_rejected empty_provider short_name_params false Hlen)).
Defined.

(** In check mode [delete_container_registry] touches nothing remote: it
    sets [changed] and stores [None] as the state. *)
Lemma delete_in_check_mode P e :
  check_mode (self e) = true ->
  delete_container_registry P e
    = (Ok None,
       {| self := set_state StNone (set_changed true (self e)); calls := calls e |}).
Proof.
  intros Hc. unfold_module; simp. by rewrite Hc.
Qed.

(** C4.  With state=absent in dry-run mode the delete step returns
    [changed = true] and a null result whatever the remote world holds: it
    issues no registry lookup and no delete call.  Hence a dry run whose
    preconditions pass ends with [(changed=true, result=null)], and no dry
    run with state=absent ever looks the registry up or writes. *)
Theorem C4_absent_dry_run P kw :
  param_state kw = absent ->
  (forall e, check_mode (self e) = true ->
     delete_container_registry P e
       = (Ok None,
          {| self := set_state StNone (set_changed true (self e));
             calls := calls e |})) /\
  count_calls is_registry_lookup (calls (snd (reconcile P kw true))) = 0%nat /\
  count_calls is_write (calls (snd (reconcile P kw true))) = 0%nat /\
  (forall g,
     resource_group_resolves P kw g ->
     name_length_ok (param_name kw) ->
     fst (reconcile P kw true) = Ok (true, StNone) /\
     calls (snd (reconcile P kw true)) = [ResourceGroupsGet (param_resource_group kw)]).
Proof.
  intros Hst. split; [apply delete_in_check_mode |].
  assert (Hcalls : calls (snd (reconcile P kw true))
                   = [ResourceGroupsGet (param_resource_group kw)]).
  { unfold_module; simp.
    destruct (get_resource_group P [] (param_resource_group kw)) as [[g|]|msg]; simp;
      try done.
    destruct (truthy_str (param_location kw)); simp;
      destruct (_ || _); simp; rewrite ?Hst; done. }
  rewrite Hcalls. split; [done |]. split; [done |].
  intros g Hrg Hnm. split; [| done].
  pass_preconditions Hrg Hnm; rewrite Hst; done.
Qed.

Lemma C4_absent_dry_run_witness :
  param_state delete_params = absent /\
  fst (reconcile populated_provider delete_params true) = Ok (true, StNone) /\
  calls (snd (reconcile populated_provider delete_params true))
    = [ResourceGroupsGet "myresourcegroup"].
Proof.
  assert (Hst : param_state delete_params = absent) by reflexivity.
  split; [exact Hst |].
  destruct (C4_absent_dry_run populated_provider delete_params Hst)
    as (_ & _ & _ & Hrun).
  apply (Hrun {| rg_location := "westus" |}); [reflexivity | vm_compute; lia].
Defined.

(** C5 as stated fails: after a real delete the result is not null. *)
Lemma C5_absent_existing_counterexample :
  param_state delete_params = absent /\
  lookup_answer populated_provider delete_params = Returns (Some (myregistry_obj true None)) /\
  fst (reconcile populated_provider delete_params false) = Ok (true, StEmptyDict) /\
  fst (reconcile populated_provider delete_params false) <> Ok (true, StNone).
Proof.
  repeat split; try (vm_compute; reflexivity); vm_compute; discriminate.
Qed.

(** C5 (amended).  For every invocation with state=absent, not in dry run,
    whose preconditions pass and whose registry lookup finds a registry:
    exactly one delete call is issued, right after the lookup.  When the
    delete returns, [changed] is true and the result is the empty dictionary
    [results['state']] started with (it is null in dry run only); when the
    provider rejects the delete with a [CloudError], the run fails with a
    [RemoteOperationError] carrying the provider's message; any other
    exception of the delete call is not caught. *)
Theorem C5_absent_existing_registry P kw g o :
  param_state kw = absent ->
  resource_group_resolves P kw g ->
  name_length_ok (param_name kw) ->
  lookup_answer P kw = Returns (Some o) ->
  calls (snd (reconcile P kw false))
    = [ResourceGroupsGet (param_resource_group kw);
       RegistriesGet (param_resource_group kw) (param_name kw);
       RegistriesDelete (param_resource_group kw) (param_name kw)] /\
  count_calls is_delete (calls (snd (reconcile P kw false))) = 1%nat /\
  count_calls is_write (calls (snd (reconcile P kw false))) = 1%nat /\
  match registries_delete P (after_lookup kw) (param_resource_group kw) (param_name kw) with
  | Returns _ => fst (reconcile P kw false) = Ok (true, StEmptyDict)
  | Throws (CloudError m) =>
      fst (reconcile P kw false)
        = Failed ("Failed to delete the container registry: " +:+ m)
      /\ fails_with RemoteOperationError (fst (reconcile P kw false))
  | Throws exc => fst (reconcile P kw false) = Raised exc
  end.
Proof.
  intros Hst Hrg Hnm Hlk.
  pass_preconditions Hrg Hnm; rewrite Hst; simp; use_answer Hlk;
    unfold after_lookup, after_preconditions; simp;
    destruct (registries_delete P _ _ _) as [status|[m|m|m]]; simp; done.
Qed.

Lemma C5_absent_existing_registry_witness :
  param_state delete_params = absent /\
  resource_group_resolves populated_provider delete_params {| rg_location := "westus" |} /\
  name_length_ok (param_name delete_params) /\
  lookup_answer populated_provider delete_params = Returns (Some (myregistry_obj true None)) /\
  count_calls is_delete (calls (snd (reconcile populated_provider delete_params false))) = 1%nat.
Proof.
  assert (Hst : param_state delete_params = absent) by reflexivity.
  assert (Hrg : resource_group_resolves populated_provider delete_params
                  {| rg_location := "westus" |}) by reflexivity.
  assert (Hnm : name_length_ok (param_name delete_params)) by (vm_compute; lia).
  assert (Hlk : lookup_answer populated_provider delete_params
                = Returns (Some (myregistry_obj true None))) by reflexivity.
  destruct (C5_absent_existing_registry populated_provider delete_params _ _ Hst Hrg Hnm Hlk)
    as (_ & Hdel & _).
  exact (conj Hst (conj Hrg (conj Hnm (conj Hlk Hdel)))).
Defined.

(** ** Creating *)

(** C6.  For every dry-run invocation with state=present whose preconditions
    pass and whose registry lookup yields null: no write call is issued, and
    the run returns [changed = true] with a synthesized record whose
    [provisioning_state] is "Succeeded" and whose [login_server] is the
    registry name followed by ".azurecr.io". *)
Theorem C6_dry_run_create P kw g :
  param_state kw = present ->
  resource_group_resolves P kw g ->
  name_length_ok (param_name kw) ->
  lookup_is_null (lookup_answer P kw) ->
  count_calls is_write (calls (snd (reconcile P kw true))) = 0%nat /\
  calls (snd (reconcile P kw true))
    = [ResourceGroupsGet (param_resource_group kw);
       RegistriesGet (param_resource_group kw) (param_name kw)] /\
  exists d,
    fst (reconcile P kw true) = Ok (true, StDict d) /\
    dict_provisioning_state d = "Succeeded" /\
    dict_login_server d = param_name kw +:+ ".azurecr.io" /\
    dict_name d = param_name kw.
Proof.
  intros Hst Hrg Hnm Hlk.
  pass_preconditions Hrg Hnm; rewrite Hst; simp;
    destruct Hlk as [H | [m H]]; use_answer H;
    (split; [done |]); (split; [done |]); eexists; done.
Qed.

Lemma C6_dry_run_create_witness :
  param_state (create_params (Some "mystorageaccount")) = present /\
  resource_group_resolves empty_provider (create_params (Some "mystorageaccount"))
    {| rg_location := "westus" |} /\
  name_length_ok (param_name (create_params (Some "mystorageaccount"))) /\
  lookup_is_null (lookup_answer empty_provider (create_params (Some "mystorageaccount"))) /\
  count_calls is_write
    (calls (snd (reconcile empty_provider (create_params (Some "mystorageaccount")) true)))
    = 0%nat.
Proof.
  set (kw := create_params (Some "mystorageaccount")).
  assert (Hst : param_state kw = present) by reflexivity.
  assert (Hrg : resource_group_resolves empty_provider kw {| rg_location := "westus" |})
    by reflexivity.
  assert (Hnm : name_length_ok (param_name kw)) by (vm_compute; lia).
  assert (Hlk : lookup_is_null (lookup_answer empty_provider kw)) by (left; reflexivity).
  exact (conj Hst (conj Hrg (conj Hnm (conj Hlk
           (proj1 (C6_dry_run_create empty_provider kw _ Hst Hrg Hnm Hlk)))))).
Defined.

(** C8 as stated fails when "empty" is the empty string: the test of
    [create_container_registry] is [is None], so the empty name goes on to
    the key lookup.  If the storage service answers with a key the registry
    is created; if its client raises something other than a [CloudError]
    the run ends with that exception, which is not a [ConfigurationError]. *)
Lemma C8_empty_string_counterexample :
  param_state (create_params (Some "")) = present /\
  param_storage_account_name (create_params (Some "")) = Some "" /\
  lookup_is_null (lookup_answer creating_provider (create_params (Some ""))) /\
  count_calls is_create
    (calls (snd (reconcile creating_provider (create_params (Some "")) false))) = 1%nat /\
  ~ fails_with ConfigurationError
      (fst (reconcile creating_provider (create_params (Some "")) false)) /\
  ~ fails_with ConfigurationError
      (fst (reconcile validating_provider (create_params (Some "")) false)).
Proof.
  split; [reflexivity |]. split; [reflexivity |]. split; [left; reflexivity |].
  split; [vm_compute; reflexivity |].
  split; vm_compute; tauto.
Qed.

(** C8 (amended).  For every invocation with state=present, not in dry run,
    whose preconditions pass and whose registry lookup yields null: when
    the storage account name is null (not given) the run fails with a
    [ConfigurationError]; when the name is given and the key lookup leaves
    [account_keys] null (the SDK returned nothing, or raised the
    [CloudError] that is caught), the run fails with a [ConfigurationError]
    as well.  In both cases no create call has been issued. *)
Theorem C8_create_requires_storage_account P kw g :
  param_state kw = present ->
  resource_group_resolves P kw g ->
  name_length_ok (param_name kw) ->
  lookup_is_null (lookup_answer P kw) ->
  (param_storage_account_name kw = None ->
     fst (reconcile P kw false)
       = Failed "Parameter error: A valid storage account name is required." /\
     fails_with ConfigurationError (fst (reconcile P kw false)) /\
     count_calls is_create (calls (snd (reconcile P kw false))) = 0%nat /\
     count_calls is_key_lookup (calls (snd (reconcile P kw false))) = 0%nat) /\
  (forall a,
     param_storage_account_name kw = Some a ->
     keys_are_null (key_answer P kw) ->
     fst (reconcile P kw false)
       = Failed "Parameter error: A valid storage account is required." /\
     fails_with ConfigurationError (fst (reconcile P kw false)) /\
     count_calls is_create (calls (snd (reconcile P kw false))) = 0%nat).
Proof.
  intros Hst Hrg Hnm Hlk. split.
  - intros Hsa.
    pass_preconditions Hrg Hnm; rewrite Hst; simp;
      destruct Hlk as [H | [m H]]; use_answer H; rewrite Hsa; done.
  - intros a Hsa Hk.
    pass_preconditions Hrg Hnm; rewrite Hst; simp;
      destruct Hlk as [H | [m H]]; use_answer H; rewrite Hsa in *; simp;
      destruct Hk as [Hk | [m' Hk]]; use_answer Hk; done.
Qed.

Lemma C8_create_requires_storage_account_witness :
  param_state (create_params None) = present /\
  resource_group_resolves empty_provider (create_params None) {| rg_location := "westus" |} /\
  name_length_ok (param_name (create_params None)) /\
  lookup_is_null (lookup_answer empty_provider (create_params None)) /\
  param_storage_account_name (create_params None) = None /\
  fst (reconcile empty_provider (create_params None) false)
    = Failed "Parameter error: A valid storage account name is required.".
Proof.
  set (kw := create_params None).
  assert (Hst : param_state kw = present) by reflexivity.
  assert (Hrg : resource_group_resolves empty_provider kw {| rg_location := "westus" |})
    by reflexivity.
  assert (Hnm : name_length_ok (param_name kw)) by (vm_compute; lia).
  assert (Hlk : lookup_is_null (lookup_answer empty_provider kw)) by (left; reflexivity).
  assert (Hsa : param_storage_account_name kw = None) by reflexivity.
  exact (conj Hst (conj Hrg (conj Hnm (conj Hlk (conj Hsa
           (proj1 (proj1 (C8_create_requires_storage_account empty_provider kw _
                            Hst Hrg Hnm Hlk) Hsa))))))).
Defined.

(** The test of [create_container_registry] is [is None]: an empty string
    given as storage account name passes it and is handed to the key
    lookup, whose answer then decides. *)
Lemma create_with_empty_string_account P kw g :
  param_state kw = present ->
  resource_group_resolves P kw g ->
  name_length_ok (param_name kw) ->
  lookup_is_null (lookup_answer P kw) ->
  param_storage_account_name kw = Some "" ->
  exists rest,
    calls (snd (reconcile P kw false))
    = ([ResourceGroupsGet (param_resource_group kw);
        RegistriesGet (param_resource_group kw) (param_name kw);
        StorageAccountsListKeys (param_resource_group kw) (Some "")] ++ rest)%list.
Proof.
  intros Hst Hrg Hnm Hlk Hsa.
  pass_preconditions Hrg Hnm; rewrite Hst; simp;
    destruct Hlk as [H | [m H]]; use_answer H; rewrite Hsa; simp;
    repeat
      (match goal with
       | |- context [storage_accounts_list_keys P ?h ?r ?n] =>
           destruct (storage_accounts_list_keys P h r n) as [[[[|? ?]]|]|[?|?|?]]
       | |- context [registries_create P ?h ?r ?n ?d] =>
           destruct (registries_create P h r n d) as [?|?]
       | |- context [poller_result P ?h ?d] =>
           destruct (poller_result P h d) as [?|?]
       | |- context [registries_get P ?h ?r ?n] =>
           destruct (registries_get P h r n) as [[?|]|[?|?|?]]
       end; simp);
    rewrite ?Hsa; eexists; reflexivity.
Qed.

(** C9.  In dry-run mode with state=present, preconditions passed and no
    existing registry, the create path returns [changed = true] with a
    synthesized record even when [storage_account_name] is null: the record
    carries the null name, and nothing is reported as an error, the check of
    the storage account name coming after the dry-run return. *)
Theorem C9_dry_run_create_skips_storage_check P kw g :
  param_state kw = present ->
  resource_group_resolves P kw g ->
  name_length_ok (param_name kw) ->
  lookup_is_null (lookup_answer P kw) ->
  param_storage_account_name kw = None ->
  (exists d,
     fst (reconcile P kw true) = Ok (true, StDict d) /\
     dict_storage_account_name d = None /\
     dict_provisioning_state d = "Succeeded") /\
  fst (reconcile P kw false)
    = Failed "Parameter error: A valid storage account name is required.".
Proof.
  intros Hst Hrg Hnm Hlk Hsa. split.
  - pass_preconditions Hrg Hnm; rewrite Hst; simp;
      destruct Hlk as [H | [m H]]; use_answer H; rewrite Hsa; eexists; done.
  - pass_preconditions Hrg Hnm; rewrite Hst; simp;
      destruct Hlk as [H | [m H]]; use_answer H; rewrite Hsa; done.
Qed.

Lemma C9_dry_run_create_skips_storage_check_witness :
  param_state (create_params None) = present /\
  param_storage_account_name (create_params None) = None /\
  exists d,
    fst (reconcile empty_provider (create_params None) true) = Ok (true, StDict d) /\
    dict_storage_account_name d = None /\
    dict_provisioning_state d = "Succeeded".
Proof.
  set (kw := create_params None).
  assert (Hst : param_state kw = present) by reflexivity.
  assert (Hrg : resource_group_resolves empty_provider kw {| rg_location := "westus" |})
    by reflexivity.
  assert (Hnm : name_length_ok (param_name kw)) by (vm_compute; lia).
  assert (Hlk : lookup_is_null (lookup_answer empty_provider kw)) by (left; reflexivity).
  assert (Hsa : param_storage_account_name kw = None) by reflexivity.
  exact (conj Hst (conj Hsa
           (proj1 (C9_dry_run_create_skips_storage_check empty_provider kw _
                     Hst Hrg Hnm Hlk Hsa)))).
Defined.

(** ** The storage-account key *)

(** C10.  [get_storage_account_key] reads [keys[0]] with no guard.  When the
    key-list call returns an object whose [keys] list is empty, the read is
    out of bounds: the method ends with an [IndexError], which is not a
    [ConfigurationError] (it is not a [fail] at all).  The method fails
    exactly when [account_keys] is null (the SDK returned nothing, or raised
    the [CloudError] that is caught), and that failure is a
    [ConfigurationError]. *)
Theorem C10_key_index_unguarded P e :
  let answer :=
    storage_accounts_list_keys P (calls e)
      (resource_group (self e)) (storage_account_name (self e)) in
  (forall account_keys,
     answer = Returns (Some account_keys) ->
     keys account_keys = [] ->
     fst (get_storage_account_key P e) = Raised (IndexError "list index out of range") /\
     ~ fails_with ConfigurationError (fst (get_storage_account_key P e))) /\
  ((exists msg, fst (get_storage_account_key P e) = Failed msg) <-> keys_are_null answer) /\
  (keys_are_null answer ->
     fst (get_storage_account_key P e)
       = Failed "Parameter error: A valid storage account is required." /\
     fails_with ConfigurationError (fst (get_storage_account_key P e))).
Proof.
  intros answer. subst answer. unfold keys_are_null.
  unfold_module; simp.
  destruct (storage_accounts_list_keys P _ _ _) as [[[ks]|]|[m|m|m]]; simp.
  - split; [| split].
    + intros ak [= <-] Hks. simp. subst ks. simp. split; [done | tauto].
    + split.
      * destruct ks; simp; intros [msg ?]; discriminate.
      * intros [? | [m ?]]; discriminate.
    + intros [? | [m ?]]; discriminate.
  - split; [| split].
    + intros ak ?; discriminate.
    + split; [by left | by eexists].
    + done.
  - split; [| split].
    + intros ak ?; discriminate.
    + split; [right; by eexists | by eexists].
    + done.
  - split; [| split].
    + intros ak ?; discriminate.
    + split; [intros [msg ?]; discriminate | intros [? | [m' ?]]; discriminate].
    + intros [? | [m' ?]]; discriminate.
  - split; [| split].
    + intros ak ?; discriminate.
    + split; [intros [msg ?]; discriminate | intros [? | [m' ?]]; discriminate].
    + intros [? | [m' ?]]; discriminate.
Qed.

(** On the create path, an account with an empty key list ends the run with
    the uncaught [IndexError], before any create call. *)
Lemma create_with_empty_key_list P kw g a account_keys :
  param_state kw = present ->
  resource_group_resolves P kw g ->
  name_length_ok (param_name kw) ->
  lookup_is_null (lookup_answer P kw) ->
  param_storage_account_name kw = Some a ->
  key_answer P kw = Returns (Some account_keys) ->
  keys account_keys = [] ->
  fst (reconcile P kw false) = Raised (IndexError "list index out of range") /\
  count_calls is_create (calls (snd (reconcile P kw false))) = 0%nat.
Proof.
  intros Hst Hrg Hnm Hlk Hsa Hk Hks.
  pass_preconditions Hrg Hnm; rewrite Hst; simp;
    destruct Hlk as [H | [m H]]; use_answer H; rewrite Hsa in *; simp;
    use_answer Hk; rewrite Hks; done.
Qed.

Lemma C10_key_index_unguarded_witness :
  storage_accounts_list_keys keyless_provider (calls create_env)
      (resource_group (self create_env)) (storage_account_name (self create_env))
    = Returns (Some {| keys := [] |}) /\
  fst (get_storage_account_key keyless_provider create_env)
    = Raised (IndexError "list index out of range").
Proof.
  assert (Hans : storage_accounts_list_keys keyless_provider (calls create_env)
                   (resource_group (self create_env))
                   (storage_account_name (self create_env))
                 = Returns (Some {| keys := [] |})) by reflexivity.
  split; [exact Hans |].
  exact (proj1 (proj1 (C10_key_index_unguarded keyless_provider create_env) _ Hans eq_refl)).
Defined.

(** ** Updating *)

(** [update_container_registry] lists the storage keys once when the
    requested account differs from the one of the existing registry, and
    never otherwise. *)
Lemma key_lookup_when_account_differs P registry_dictionary e a :
  storage_account_name (self e) = Some a ->
  count_calls is_key_lookup (calls (snd (update_container_registry P registry_dictionary e)))
  = (count_calls is_key_lookup (calls e)
     + if bool_decide (Some a ≠ dict_storage_account_name registry_dictionary)
       then 1 else 0)%nat.
Proof.
  intros Hsa. unfold_module; simp_calls. rewrite Hsa; simp_calls.
  repeat
    (simp_calls;
     match goal with
     | |- context [bool_decide ?p] => destruct (bool_decide p)
     | |- context [update_tags ?P ?x ?y] => destruct (update_tags P x y) as [[] ?]
     | |- context [check_mode ?s] => destruct (check_mode s)
     | |- context [results_changed ?s] => destruct (results_changed s)
     | |- context [storage_accounts_list_keys ?P ?h ?r ?n] =>
         destruct (storage_accounts_list_keys P h r n) as [[[[|? ?]]|]|[?|?|?]]
     | |- context [registries_update ?P ?h ?r ?n ?d] =>
         destruct (registries_update P h r n d) as [?|?]
     | |- context [registries_get ?P ?h ?r ?n] =>
         destruct (registries_get P h r n) as [[?|]|[?|?|?]]
     end);
    simp_calls; rewrite ?count_calls_app, ?count_calls_one; cbn; lia.
Qed.

(** The tag merge of the spec on the scenario: nothing set, [env: dev]
    requested. *)
Lemma MergeTags_adds_requested_tag :
  MergeTags (Some dev_tags) None = (true, dev_tags).
Proof. vm_compute. reflexivity. Qed.

(** C7.  The update scenario, not in dry run: the existing registry has
    [admin_user_enabled = true], the storage account of the request and no
    tags; the request has [admin_user_enabled = false] and tags [env: dev],
    which the tag merge reports as a change to [env: dev].  Then the update
    delta holds the admin flag and the merged tags and no storage account;
    exactly one update call is issued, right after the registry lookup; and
    no key lookup is made.  In general, on the update path the keys are
    listed (once) if and only if the requested storage account differs from
    the one of the existing record. *)
Theorem C7_update_scenario P kw g o :
  param_state kw = present ->
  resource_group_resolves P kw g ->
  name_length_ok (param_name kw) ->
  param_admin_user_enabled kw = false ->
  param_tags kw = Some dev_tags ->
  lookup_answer P kw = Returns (Some o) ->
  obj_admin_user_enabled o = true ->
  param_storage_account_name kw = Some (obj_storage_account_name o) ->
  obj_tags o = None ->
  update_tags P (Some dev_tags) None = (true, dev_tags) ->
  let delta :=
    {| upd_admin_user_enabled := Some false;
       upd_storage_account := None;
       upd_tags := Some dev_tags |} in
  let trace := calls (snd (reconcile P kw false)) in
  (exists rest,
     trace = ([ResourceGroupsGet (param_resource_group kw);
               RegistriesGet (param_resource_group kw) (param_name kw);
               RegistriesUpdate (param_resource_group kw) (param_name kw) delta]
              ++ rest)%list) /\
  count_calls is_update trace = 1%nat /\
  count_calls is_write trace = 1%nat /\
  count_calls is_key_lookup trace = 0%nat /\
  (forall registry_dictionary e a,
     storage_account_name (self e) = Some a ->
     let trace' := calls (snd (update_container_registry P registry_dictionary e)) in
     (count_calls is_key_lookup trace' = S (count_calls is_key_lookup (calls e))
      <-> storage_account_name (self e) ≠ dict_storage_account_name registry_dictionary) /\
     (count_calls is_key_lookup trace' = count_calls is_key_lookup (calls e)
      <-> storage_account_name (self e) = dict_storage_account_name registry_dictionary)).
Proof.
  intros Hst Hrg Hnm Hadm Htags Hlk Hobj Hsa Hot Hmerge delta trace.
  assert (Hrun :
    (exists rest,
       trace = ([ResourceGroupsGet (param_resource_group kw);
                 RegistriesGet (param_resource_group kw) (param_name kw);
                 RegistriesUpdate (param_resource_group kw) (param_name kw) delta]
                ++ rest)%list) /\
    count_calls is_update trace = 1%nat /\
    count_calls is_write trace = 1%nat /\
    count_calls is_key_lookup trace = 0%nat).
  { subst trace delta.
    pass_preconditions Hrg Hnm; rewrite Hst; simp; use_answer Hlk;
      rewrite Hsa, Hadm, Htags, Hobj, Hot; simp;
      rewrite (bool_decide_eq_true_2 (false ≠ true)) by done; simp;
      rewrite (bool_decide_eq_false_2 (Some _ ≠ Some _))
        by (intros Hne; by apply Hne);
      simp; cbn [truthy_tags]; rewrite Hmerge; simp;
      destruct (registries_update P _ _ _ _) as [?|?]; simp;
      try match goal with
          | |- context [registries_get P ?h ?r ?n] =>
              destruct (registries_get P h r n) as [[?|]|[?|?|?]]
          end; simp;
      (split; [eexists; reflexivity | done]). }
  destruct Hrun as (Htrace & Hupd & Hwr & Hkey).
  repeat (split; [assumption |]).
  intros registry_dictionary e a Ha trace'. subst trace'.
  rewrite (key_lookup_when_account_differs P registry_dictionary e a Ha), Ha.
  destruct (bool_decide_reflect (Some a ≠ dict_storage_account_name registry_dictionary))
    as [Hne | Heq].
  - split; split; intros; try done; lia.
  - apply dec_stable in Heq. split; split; intros; try done; lia.
Qed.

Lemma C7_update_scenario_witness :
  param_state scenario_params = present /\
  param_admin_user_enabled scenario_params = false /\
  param_tags scenario_params = Some dev_tags /\
  lookup_answer populated_provider scenario_params
    = Returns (Some (myregistry_obj true None)) /\
  update_tags populated_provider (Some dev_tags) None = (true, dev_tags) /\
  count_calls is_update (calls (snd (reconcile populated_provider scenario_params false)))
    = 1%nat /\
  count_calls is_key_lookup (calls (snd (reconcile populated_provider scenario_params false)))
    = 0%nat.
Proof.
  assert (Hst : param_state scenario_params = present) by reflexivity.
  assert (Hrg : resource_group_resolves populated_provider scenario_params
                  {| rg_location := "westus" |}) by reflexivity.
  assert (Hnm : name_length_ok (param_name scenario_params)) by (vm_compute; lia).
  assert (Hadm : param_admin_user_enabled scenario_params = false) by reflexivity.
  assert (Htags : param_tags scenario_params = Some dev_tags) by reflexivity.
  assert (Hlk : lookup_answer populated_provider scenario_params
                = Returns (Some (myregistry_obj true None))) by reflexivity.
  assert (Hmerge : update_tags populated_provider (Some dev_tags) None = (true, dev_tags))
    by (vm_compute; reflexivity).
  destruct (C7_update_scenario populated_provider scenario_params _ _
              Hst Hrg Hnm Hadm Htags Hlk eq_refl eq_refl eq_refl Hmerge)
    as (_ & Hupd & _ & Hkey & _).
  exact (conj Hst (conj Hadm (conj Htags (conj Hlk (conj Hmerge (conj Hupd Hkey)))))).
Defined.

(** * Further properties of the module *)

Lemma normalised_tags_nonempty (t : option tag_map) :
  (if truthy_tags t then t else None) ≠ Some ∅.
Proof.
  destruct t as [m|]; cbn; [| done].
  destruct (bool_decide_reflect (m = ∅)) as [-> | Hne]; cbn; [done |].
  intros [= ->]. by apply Hne.
Qed.

(** Run [exec_module] up to the branch on [state], keeping the location
    test as it is. *)
Ltac enter Hrg Hnm :=
  unfold_module; simp;
  unfold resource_group_resolves in Hrg; rewrite Hrg; simp;
  rewrite (name_check_passes _ Hnm); simp.

(** Bring the update path of a run to the three comparisons. *)
Ltac enter_update Hst Hrg Hnm Hlk Hsa :=
  unfold differs, update_delta, before_update, key_answer, after_lookup,
    after_preconditions, refetched in *;
  unfold admin_differs, account_differs, tags_differ in *;
  enter Hrg Hnm;
  destruct (truthy_str (param_location _)); simp; rewrite Hst; simp;
  use_answer Hlk; rewrite Hsa in *; simp.

Ltac split_comparisons P :=
  repeat
    match goal with
    | |- context [bool_decide ?p] => destruct (bool_decide_reflect p); simp
    | |- context [update_tags P ?x ?y] =>
        destruct (update_tags P x y) as [[] ?]; simp
    end.

(** ** Creating, for real *)

(** X1.  A create that goes through.  With state=present, not in dry run,
    preconditions passed, no registry found and a storage account whose key
    list is not empty, the run lists the keys, issues exactly one create
    call and waits for it, then fetches the registry again.  The create
    parameters carry the requested sku, admin flag and tags, the location
    (the resource group's when none is given) and the storage account with
    the value of the first key.  The run reports [changed = true] with what
    the second lookup returns: the registry's dictionary, or null when the
    lookup finds nothing; an exception of that lookup other than a
    [CloudError] reaches the top although the registry was created. *)
Theorem X1_create_request_and_refetch P kw g a k ks poller :
  param_state kw = present ->
  resource_group_resolves P kw g ->
  name_length_ok (param_name kw) ->
  lookup_is_null (lookup_answer P kw) ->
  param_storage_account_name kw = Some a ->
  key_answer P kw = Returns (Some {| keys := k :: ks |}) ->
  let rg := param_resource_group kw in
  let nm := param_name kw in
  let parameters := create_parameters kw g (value k) in
  let t3 := (after_lookup kw ++ [StorageAccountsListKeys rg (Some a)])%list in
  registries_create P t3 rg nm parameters = Returns poller ->
  poller_result P (t3 ++ [RegistriesCreate rg nm parameters])%list poller = Returns tt ->
  let t5 := (t3 ++ [RegistriesCreate rg nm parameters; PollerResult poller])%list in
  calls (snd (reconcile P kw false)) = (t5 ++ [RegistriesGet rg nm])%list /\
  count_calls is_create (calls (snd (reconcile P kw false))) = 1%nat /\
  fst (reconcile P kw false) = refetched (registries_get P t5 rg nm).
Proof.
  intros Hst Hrg Hnm Hlk Hsa Hk rg nm parameters t3 Hcr Hpo t5.
  subst rg nm parameters t3 t5.
  unfold create_parameters, defaulted_location, after_lookup, after_preconditions in *.
  enter Hrg Hnm.
  destruct (truthy_str (param_location kw)); simp; rewrite Hst; simp;
    destruct Hlk as [H | [m H]]; use_answer H; rewrite Hsa in *; simp;
    use_answer Hk; rewrite ?Hsa; rewrite Hcr; simp; rewrite ?Hsa; rewrite Hpo; simp; rewrite ?Hsa;
    match goal with
    | |- context [registries_get P ?h ?r ?n] =>
        destruct (registries_get P h r n) as [[?|]|[?|?|?]]
    end; simp; done.
Qed.

Lemma X1_create_request_and_refetch_witness :
  param_state (create_params (Some "mystorageaccount")) = present /\
  key_answer creating_provider (create_params (Some "mystorageaccount")) = one_key /\
  count_calls is_create
    (calls (snd (reconcile creating_provider (create_params (Some "mystorageaccount")) false)))
    = 1%nat /\
  fst (reconcile creating_provider (create_params (Some "mystorageaccount")) false)
    = Ok (true, StDict (registry_obj_to_dict (myregistry_obj false (Some dev_tags)))).
Proof.
  set (kw := create_params (Some "mystorageaccount")).
  assert (Hst : param_state kw = present) by reflexivity.
  assert (Hrg : resource_group_resolves creating_provider kw {| rg_location := "westus" |})
    by reflexivity.
  assert (Hnm : name_length_ok (param_name kw)) by (vm_compute; lia).
  assert (Hlk : lookup_is_null (lookup_answer creating_provider kw)) by (left; reflexivity).
  assert (Hsa : param_storage_account_name kw = Some "mystorageaccount")
    by reflexivity.
  assert (Hk : key_answer creating_provider kw = Returns (Some {| keys := [ {| key_name := "key1"; value := "c2VjcmV0" |} ] |}))
    by reflexivity.
  destruct (X1_create_request_and_refetch creating_provider kw _ _ _ _
              {| operation_id := 1 |} Hst Hrg Hnm Hlk Hsa Hk eq_refl eq_refl)
    as (_ & Hcount & Hres).
  exact (conj Hst (conj Hk (conj Hcount Hres))).
Defined.

(** X2.  A create that is refused.  On the same path, whatever exception
    the create call raises, or the wait on its poller raises, ends the run
    with the [RemoteOperationError] "Failed to create container registry:"
    followed by the exception's message; the registry is not fetched again
    and the create call is the only write. *)
Theorem X2_create_failure_is_remote_error P kw g a k ks :
  param_state kw = present ->
  resource_group_resolves P kw g ->
  name_length_ok (param_name kw) ->
  lookup_is_null (lookup_answer P kw) ->
  param_storage_account_name kw = Some a ->
  key_answer P kw = Returns (Some {| keys := k :: ks |}) ->
  let rg := param_resource_group kw in
  let nm := param_name kw in
  let parameters := create_parameters kw g (value k) in
  let t3 := (after_lookup kw ++ [StorageAccountsListKeys rg (Some a)])%list in
  (forall exc,
     registries_create P t3 rg nm parameters = Throws exc ->
     fst (reconcile P kw false)
       = Failed ("Failed to create container registry: " +:+ str exc) /\
     fails_with RemoteOperationError (fst (reconcile P kw false)) /\
     calls (snd (reconcile P kw false)) = (t3 ++ [RegistriesCreate rg nm parameters])%list) /\
  (forall poller exc,
     registries_create P t3 rg nm parameters = Returns poller ->
     poller_result P (t3 ++ [RegistriesCreate rg nm parameters])%list poller = Throws exc ->
     fst (reconcile P kw false)
       = Failed ("Failed to create container registry: " +:+ str exc) /\
     fails_with RemoteOperationError (fst (reconcile P kw false)) /\
     calls (snd (reconcile P kw false))
       = (t3 ++ [RegistriesCreate rg nm parameters; PollerResult poller])%list).
Proof.
  intros Hst Hrg Hnm Hlk Hsa Hk rg nm parameters t3.
  subst rg nm parameters t3.
  unfold create_parameters, defaulted_location, after_lookup, after_preconditions in *.
  split.
  - intros exc Hcr. enter Hrg Hnm.
    destruct (truthy_str (param_location kw)); simp; rewrite Hst; simp;
      destruct Hlk as [H | [m H]]; use_answer H; rewrite Hsa in *; simp;
      use_answer Hk; rewrite ?Hsa; rewrite Hcr; simp; done.
  - intros poller exc Hcr Hpo. enter Hrg Hnm.
    destruct (truthy_str (param_location kw)); simp; rewrite Hst; simp;
      destruct Hlk as [H | [m H]]; use_answer H; rewrite Hsa in *; simp;
      use_answer Hk; rewrite ?Hsa; rewrite Hcr; simp; rewrite ?Hsa; rewrite Hpo; simp;
      done.
Qed.

Lemma X2_create_failure_is_remote_error_witness :
  param_state (create_params (Some "mystorageaccount")) = present /\
  fst (reconcile rejecting_provider (create_params (Some "mystorageaccount")) false)
    = Failed "Failed to create container registry: RegistryNameNotAvailable".
Proof.
  set (kw := create_params (Some "mystorageaccount")).
  assert (Hst : param_state kw = present) by reflexivity.
  assert (Hrg : resource_group_resolves rejecting_provider kw {| rg_location := "westus" |})
    by reflexivity.
  assert (Hnm : name_length_ok (param_name kw)) by (vm_compute; lia).
  assert (Hlk : lookup_is_null (lookup_answer rejecting_provider kw)) by (left; reflexivity).
  assert (Hsa : param_storage_account_name kw = Some "mystorageaccount")
    by reflexivity.
  assert (Hk : key_answer rejecting_provider kw = Returns (Some {| keys := [ {| key_name := "key1"; value := "c2VjcmV0" |} ] |}))
    by reflexivity.
  split; [exact Hst |].
  exact (proj1 (proj1 (X2_create_failure_is_remote_error rejecting_provider kw _ _ _ _
                         Hst Hrg Hnm Hlk Hsa Hk)
                  (CloudError "RegistryNameNotAvailable") eq_refl)).
Defined.

(** ** Updating, for real and in dry run *)

(** X3.  An update that has something to change.  With state=present, not
    in dry run, preconditions passed, a registry found, a storage account
    name given (and, when it differs from the registry's, a key list that is
    not empty) and at least one of the three comparisons reporting a
    difference: the run issues one update call whose parameters hold exactly
    the fields that differ (the admin flag, the storage account with the
    first key, the merged tags) and nothing else.  If the call raises any
    exception, the run fails with the [RemoteOperationError] "Failed to
    update container registry:" and its message; otherwise the registry is
    fetched again and reported with [changed = true]. *)
Theorem X3_update_sends_changed_fields P kw g o a k ks :
  param_state kw = present ->
  resource_group_resolves P kw g ->
  name_length_ok (param_name kw) ->
  lookup_answer P kw = Returns (Some o) ->
  param_storage_account_name kw = Some a ->
  (a <> obj_storage_account_name o ->
   key_answer P kw = Returns (Some {| keys := k :: ks |})) ->
  differs P kw o = true ->
  let rg := param_resource_group kw in
  let nm := param_name kw in
  let delta := update_delta P kw o (value k) in
  let t := before_update kw o in
  match registries_update P t rg nm delta with
  | Throws exc =>
      fst (reconcile P kw false)
        = Failed ("Failed to update container registry: " +:+ str exc) /\
      fails_with RemoteOperationError (fst (reconcile P kw false)) /\
      calls (snd (reconcile P kw false)) = (t ++ [RegistriesUpdate rg nm delta])%list
  | Returns _ =>
      fst (reconcile P kw false)
        = refetched (registries_get P (t ++ [RegistriesUpdate rg nm delta])%list rg nm) /\
      calls (snd (reconcile P kw false))
        = (t ++ [RegistriesUpdate rg nm delta; RegistriesGet rg nm])%list
  end.
Proof.
  intros Hst Hrg Hnm Hlk Hsa Hkey Hdiff rg nm delta t. subst rg nm delta t.
  enter_update Hst Hrg Hnm Hlk Hsa; split_comparisons P; try discriminate;
    rewrite ?Hsa;
    try (rewrite Hkey by congruence; simp);
    rewrite ?Hsa;
    repeat
      match goal with
      | |- context [registries_update P ?h ?r ?n ?d] =>
          destruct (registries_update P h r n d) as [?|?]; simp
      | |- context [registries_get P ?h ?r ?n] =>
          destruct (registries_get P h r n) as [[?|]|[?|?|?]]; simp
      end; rewrite ?Hsa; done.
Qed.

Lemma X3_update_sends_changed_fields_witness :
  differs populated_provider move_params (myregistry_obj true None) = true /\
  calls (snd (reconcile populated_provider move_params false))
    = [ResourceGroupsGet "myresourcegroup";
       RegistriesGet "myresourcegroup" "myregistry";
       StorageAccountsListKeys "myresourcegroup" (Some "otheraccount");
       RegistriesUpdate "myresourcegroup" "myregistry"
         {| upd_admin_user_enabled := None;
            upd_storage_account :=
              Some {| sa_name := Some "otheraccount"; sa_access_key := "c2VjcmV0" |};
            upd_tags := None |};
       RegistriesGet "myresourcegroup" "myregistry"].
Proof.
  assert (Hst : param_state move_params = present) by reflexivity.
  assert (Hrg : resource_group_resolves populated_provider move_params {| rg_location := "westus" |})
    by reflexivity.
  assert (Hnm : name_length_ok (param_name move_params)) by (vm_compute; lia).
  assert (Hlk : lookup_answer populated_provider move_params
                = Returns (Some (myregistry_obj true None))) by reflexivity.
  assert (Hsa : param_storage_account_name move_params = Some "otheraccount")
    by reflexivity.
  assert (Hd : differs populated_provider move_params (myregistry_obj true None) = true)
    by (vm_compute; reflexivity).
  split; [exact Hd |].
  exact (proj2 (X3_update_sends_changed_fields populated_provider move_params _ _ _
                  {| key_name := "key1"; value := "c2VjcmV0" |} []
                  Hst Hrg Hnm Hlk Hsa (fun _ => eq_refl) Hd)).
Defined.

(** X4.  On the update path, in dry run or not, a run that returns reports
    [changed] exactly when one of the three comparisons (admin flag, storage
    account name, tag merge) reports a difference. *)
Theorem X4_update_changed_flag P kw g o a check c st :
  param_state kw = present ->
  resource_group_resolves P kw g ->
  name_length_ok (param_name kw) ->
  lookup_answer P kw = Returns (Some o) ->
  param_storage_account_name kw = Some a ->
  fst (reconcile P kw check) = Ok (c, st) ->
  c = differs P kw o.
Proof.
  intros Hst Hrg Hnm Hlk Hsa.
  destruct check;
    enter_update Hst Hrg Hnm Hlk Hsa; split_comparisons P; rewrite ?Hsa;
    repeat
      match goal with
      | |- context [storage_accounts_list_keys P ?h ?r ?n] =>
          destruct (storage_accounts_list_keys P h r n) as [[[[|? ?]]|]|[?|?|?]]; simp
      | |- context [registries_update P ?h ?r ?n ?d] =>
          destruct (registries_update P h r n d) as [?|?]; simp
      | |- context [registries_get P ?h ?r ?n] =>
          destruct (registries_get P h r n) as [[?|]|[?|?|?]]; simp
      end; intros; simplify_eq; done.
Qed.

Lemma X4_update_changed_flag_witness :
  fst (reconcile settled_provider settled_params true) = Ok (false, StEmptyDict) /\
  false = differs settled_provider settled_params (myregistry_obj false None).
Proof.
  assert (Hst : param_state settled_params = present) by reflexivity.
  assert (Hrg : resource_group_resolves settled_provider settled_params {| rg_location := "westus" |})
    by reflexivity.
  assert (Hnm : name_length_ok (param_name settled_params)) by (vm_compute; lia).
  assert (Hlk : lookup_answer settled_provider settled_params
                = Returns (Some (myregistry_obj false None))) by reflexivity.
  assert (Hsa : param_storage_account_name settled_params = Some "mystorageaccount")
    by reflexivity.
  assert (Hres : fst (reconcile settled_provider settled_params true)
                 = Ok (false, StEmptyDict)) by (vm_compute; reflexivity).
  split; [exact Hres |].
  exact (X4_update_changed_flag settled_provider settled_params _ _ _ true _ _
           Hst Hrg Hnm Hlk Hsa Hres).
Defined.

(** X5.  When a registry exists and no storage account name is given, the
    run fails with a [ConfigurationError] right after the lookup, in dry
    run as well as for real: on the update path the test of the name comes
    before the test of check mode (on the create path it comes after). *)
Theorem X5_update_requires_storage_account P kw g o check :
  param_state kw = present ->
  resource_group_resolves P kw g ->
  name_length_ok (param_name kw) ->
  lookup_answer P kw = Returns (Some o) ->
  param_storage_account_name kw = None ->
  fst (reconcile P kw check)
    = Failed "Parameter error: A valid storage account name is required." /\
  fails_with ConfigurationError (fst (reconcile P kw check)) /\
  calls (snd (reconcile P kw check)) = after_lookup kw.
Proof.
  intros Hst Hrg Hnm Hlk Hsa.
  enter_update Hst Hrg Hnm Hlk Hsa; done.
Qed.

Lemma X5_update_requires_storage_account_witness :
  param_storage_account_name accountless_params = None /\
  fst (reconcile populated_provider accountless_params true)
    = Failed "Parameter error: A valid storage account name is required.".
Proof.
  assert (Hst : param_state accountless_params = present) by reflexivity.
  assert (Hrg : resource_group_resolves populated_provider accountless_params {| rg_location := "westus" |})
    by reflexivity.
  assert (Hnm : name_length_ok (param_name accountless_params)) by (vm_compute; lia).
  assert (Hlk : lookup_answer populated_provider accountless_params
                = Returns (Some (myregistry_obj true None))) by reflexivity.
  assert (Hsa : param_storage_account_name accountless_params = None)
    by reflexivity.
  split; [exact Hsa |].
  exact (proj1 (X5_update_requires_storage_account populated_provider accountless_params
                  _ _ true Hst Hrg Hnm Hlk Hsa)).
Defined.

(** X6.  When the requested storage account differs from the registry's and
    its key list comes back null, the run fails with a [ConfigurationError]
    after the key lookup and before any update call, in dry run as well as
    for real. *)
Theorem X6_update_key_lookup_null P kw g o a check :
  param_state kw = present ->
  resource_group_resolves P kw g ->
  name_length_ok (param_name kw) ->
  lookup_answer P kw = Returns (Some o) ->
  param_storage_account_name kw = Some a ->
  a <> obj_storage_account_name o ->
  keys_are_null (key_answer P kw) ->
  fst (reconcile P kw check)
    = Failed "Parameter error: A valid storage account is required." /\
  fails_with ConfigurationError (fst (reconcile P kw check)) /\
  calls (snd (reconcile P kw check))
    = (after_lookup kw ++
       [StorageAccountsListKeys (param_resource_group kw) (Some a)])%list /\
  count_calls is_write (calls (snd (reconcile P kw check))) = 0%nat.
Proof.
  intros Hst Hrg Hnm Hlk Hsa Hne Hk.
  enter_update Hst Hrg Hnm Hlk Hsa;
    destruct (bool_decide_reflect
                (param_admin_user_enabled kw ≠ obj_admin_user_enabled o)); simp;
    rewrite (bool_decide_eq_true_2 (Some a ≠ Some _)) by congruence; simp;
    rewrite ?Hsa;
    destruct Hk as [Hk | [m Hk]]; rewrite Hk; done.
Qed.

Lemma X6_update_key_lookup_null_witness :
  keys_are_null (key_answer orphaned_provider move_params) /\
  fst (reconcile orphaned_provider move_params false)
    = Failed "Parameter error: A valid storage account is required.".
Proof.
  assert (Hst : param_state move_params = present) by reflexivity.
  assert (Hrg : resource_group_resolves orphaned_provider move_params {| rg_location := "westus" |})
    by reflexivity.
  assert (Hnm : name_length_ok (param_name move_params)) by (vm_compute; lia).
  assert (Hlk : lookup_answer orphaned_provider move_params
                = Returns (Some (myregistry_obj true None))) by reflexivity.
  assert (Hsa : param_storage_account_name move_params = Some "otheraccount")
    by reflexivity.
  assert (Hne : "otheraccount" <> obj_storage_account_name (myregistry_obj true None))
    by (vm_compute; discriminate).
  assert (Hk : keys_are_null (key_answer orphaned_provider move_params))
    by (right; eexists; reflexivity).
  split; [exact Hk |].
  exact (proj1 (X6_update_key_lookup_null orphaned_provider move_params _ _ _ false
                  Hst Hrg Hnm Hlk Hsa Hne Hk)).
Defined.

(** X7.  A dry-run update.  Under the hypotheses of X3 but in check mode, no
    write call is issued, yet the storage keys are still listed when the
    storage account differs.  The run reports [changed = true] with a record
    synthesized from the request alone: the requested admin flag, storage
    account and tags (not the merged tags, and nothing of the registry that
    was found), provisioning state "Succeeded". *)
Theorem X7_dry_run_update P kw g o a k ks :
  param_state kw = present ->
  resource_group_resolves P kw g ->
  name_length_ok (param_name kw) ->
  lookup_answer P kw = Returns (Some o) ->
  param_storage_account_name kw = Some a ->
  (a <> obj_storage_account_name o ->
   key_answer P kw = Returns (Some {| keys := k :: ks |})) ->
  differs P kw o = true ->
  calls (snd (reconcile P kw true)) = before_update kw o /\
  count_calls is_write (calls (snd (reconcile P kw true))) = 0%nat /\
  fst (reconcile P kw true)
  = Ok (true,
        StDict
          {| dict_id := ".../Microsoft.ContainerRegistry/registries/" +:+ param_name kw;
             dict_name := param_name kw;
             dict_type := "Microsoft.ContainerRegistry/registries";
             dict_location := defaulted_location kw g;
             dict_login_server := param_name kw +:+ ".azurecr.io";
             dict_creation_date := datetime_now P (before_update kw o);
             dict_provisioning_state := "Succeeded";
             dict_admin_user_enabled := param_admin_user_enabled kw;
             dict_storage_account_name := Some a;
             dict_sku_name := param_sku_name kw;
             dict_tags := if truthy_tags (param_tags kw) then param_tags kw else None |}).
Proof.
  intros Hst Hrg Hnm Hlk Hsa Hkey Hdiff.
  unfold defaulted_location.
  enter_update Hst Hrg Hnm Hlk Hsa; split_comparisons P; try discriminate;
    rewrite ?Hsa;
    try (rewrite Hkey by congruence; simp);
    rewrite ?Hsa; done.
Qed.

Lemma X7_dry_run_update_witness :
  differs populated_provider move_params (myregistry_obj true None) = true /\
  calls (snd (reconcile populated_provider move_params true))
    = [ResourceGroupsGet "myresourcegroup";
       RegistriesGet "myresourcegroup" "myregistry";
       StorageAccountsListKeys "myresourcegroup" (Some "otheraccount")].
Proof.
  assert (Hst : param_state move_params = present) by reflexivity.
  assert (Hrg : resource_group_resolves populated_provider move_params {| rg_location := "westus" |})
    by reflexivity.
  assert (Hnm : name_length_ok (param_name move_params)) by (vm_compute; lia).
  assert (Hlk : lookup_answer populated_provider move_params
                = Returns (Some (myregistry_obj true None))) by reflexivity.
  assert (Hsa : param_storage_account_name move_params = Some "otheraccount")
    by reflexivity.
  assert (Hd : differs populated_provider move_params (myregistry_obj true None) = true)
    by (vm_compute; reflexivity).
  split; [exact Hd |].
  exact (proj1 (X7_dry_run_update populated_provider move_params _ _ _
                  {| key_name := "key1"; value := "c2VjcmV0" |} []
                  Hst Hrg Hnm Hlk Hsa (fun _ => eq_refl) Hd)).
Defined.

(** ** Dry-run create, and the preconditions *)

(** X8.  The record of a dry-run create is the request itself: name, admin
    flag, storage account name and sku are copied; the location is the
    requested one, or the resource group's when the request has none (null
    or empty); an empty or missing tags dictionary is reported as null; the
    id is the placeholder path ending in the name, the type is the registry
    type, and the creation date is the clock at that moment. *)
Theorem X8_dry_run_create_record P kw g :
  param_state kw = present ->
  resource_group_resolves P kw g ->
  name_length_ok (param_name kw) ->
  lookup_is_null (lookup_answer P kw) ->
  fst (reconcile P kw true)
  = Ok (true,
        StDict
          {| dict_id := ".../Microsoft.ContainerRegistry/registries/" +:+ param_name kw;
             dict_name := param_name kw;
             dict_type := "Microsoft.ContainerRegistry/registries";
             dict_location := defaulted_location kw g;
             dict_login_server := param_name kw +:+ ".azurecr.io";
             dict_creation_date := datetime_now P (after_lookup kw);
             dict_provisioning_state := "Succeeded";
             dict_admin_user_enabled := param_admin_user_enabled kw;
             dict_storage_account_name := param_storage_account_name kw;
             dict_sku_name := param_sku_name kw;
             dict_tags := if truthy_tags (param_tags kw) then param_tags kw else None |}).
Proof.
  intros Hst Hrg Hnm Hlk.
  unfold defaulted_location, after_lookup, after_preconditions.
  enter Hrg Hnm.
  destruct (truthy_str (param_location kw)); simp; rewrite Hst; simp;
    destruct Hlk as [H | [m H]]; use_answer H; done.
Qed.

Lemma X8_dry_run_create_record_witness :
  lookup_is_null (lookup_answer empty_provider untagged_params) /\
  exists d,
    fst (reconcile empty_provider untagged_params true) = Ok (true, StDict d) /\
    dict_tags d = None /\ dict_location d = Some "westus".
Proof.
  assert (Hst : param_state untagged_params = present) by reflexivity.
  assert (Hrg : resource_group_resolves empty_provider untagged_params {| rg_location := "westus" |})
    by reflexivity.
  assert (Hnm : name_length_ok (param_name untagged_params)) by (vm_compute; lia).
  assert (Hlk : lookup_is_null (lookup_answer empty_provider untagged_params)) by (left; reflexivity).
  split; [exact Hlk |].
  eexists. split.
  - exact (X8_dry_run_create_record empty_provider untagged_params _ Hst Hrg Hnm Hlk).
  - split; vm_compute; reflexivity.
Defined.

(** X9.  When the resource-group helper returns nothing, every run, whatever
    the name, the state and the mode, fails with the [ConfigurationError]
    "An existing resource group is required" after that single call. *)
Theorem X9_missing_resource_group P kw check :
  get_resource_group P [] (param_resource_group kw) = HelperReturns None ->
  fst (reconcile P kw check)
    = Failed "Parameter error: An existing resource group is required" /\
  fails_with ConfigurationError (fst (reconcile P kw check)) /\
  calls (snd (reconcile P kw check)) = [ResourceGroupsGet (param_resource_group kw)].
Proof.
  intros Hrg. unfold_module; simp. rewrite Hrg. done.
Qed.

Lemma X9_missing_resource_group_witness :
  get_resource_group groupless_provider [] (param_resource_group delete_params)
    = HelperReturns None /\
  calls (snd (reconcile groupless_provider delete_params false))
    = [ResourceGroupsGet "myresourcegroup"].
Proof.
  assert (Hrg : get_resource_group groupless_provider [] (param_resource_group delete_params)
                = HelperReturns None) by reflexivity.
  split; [exact Hrg |].
  exact (proj2 (proj2 (X9_missing_resource_group groupless_provider delete_params false Hrg))).
Defined.

(** X10.  Only a [CloudError] of the registry lookup is read as "no such
    registry".  Any other exception of [registries.get] ends the run with
    that exception right after the lookup: for state=present in both modes,
    for state=absent outside dry run (in dry run the registry is not looked
    up). *)
Theorem X10_lookup_exception_propagates P kw check g exc :
  resource_group_resolves P kw g ->
  name_length_ok (param_name kw) ->
  (param_state kw = absent -> check = false) ->
  lookup_answer P kw = Throws exc ->
  (forall m, exc <> CloudError m) ->
  fst (reconcile P kw check) = Raised exc /\
  calls (snd (reconcile P kw check)) = after_lookup kw.
Proof.
  intros Hrg Hnm Hchk Hlk Hexc.
  unfold after_lookup, after_preconditions.
  enter Hrg Hnm.
  destruct (truthy_str (param_location kw)); simp;
    destruct (param_state kw); simp;
    try (rewrite (Hchk eq_refl); simp);
    use_answer Hlk;
    destruct exc as [m|m|m]; simp; try done; by destruct (Hexc m).
Qed.

Lemma X10_lookup_exception_propagates_witness :
  lookup_answer broken_provider delete_params
    = Throws (OtherException "Connection aborted.") /\
  fst (reconcile broken_provider delete_params false)
    = Raised (OtherException "Connection aborted.").
Proof.
  assert (Hrg : resource_group_resolves broken_provider delete_params {| rg_location := "westus" |})
    by reflexivity.
  assert (Hnm : name_length_ok (param_name delete_params)) by (vm_compute; lia).
  assert (Hlk : lookup_answer broken_provider delete_params
                = Throws (OtherException "Connection aborted.")) by reflexivity.
  split; [exact Hlk |].
  refine (proj1 (X10_lookup_exception_propagates broken_provider delete_params false _ _
                   Hrg Hnm (fun _ => eq_refl) Hlk _)).
  intros m; discriminate.
Defined.

(** ** What every run keeps *)

(** Case analysis on every answer and every test a run can meet. *)
Ltac explore P :=
  repeat
    (simp_calls;
     match goal with
     | |- context [get_resource_group P ?h ?r] =>
         destruct (get_resource_group P h r) as [[?|]|?]
     | |- context [truthy_str ?l] => destruct (truthy_str l)
     | |- context [((String.length ?n <? 5)%nat || ?c)] =>
         destruct ((String.length n <? 5)%nat || c)
     | |- context [match param_state ?k with _ => _ end] =>
         destruct (param_state k)
     | |- context [match param_storage_account_name ?k with _ => _ end] =>
         destruct (param_storage_account_name k)
     | |- context [bool_decide ?p] => destruct (bool_decide p)
     | |- context [update_tags P ?x ?y] => destruct (update_tags P x y) as [[] ?]
     | |- context [storage_accounts_list_keys P ?h ?r ?n] =>
         destruct (storage_accounts_list_keys P h r n) as [[[[|? ?]]|]|[?|?|?]]
     | |- context [registries_create P ?h ?r ?n ?d] =>
         destruct (registries_create P h r n d) as [?|?]
     | |- context [poller_result P ?h ?d] =>
         destruct (poller_result P h d) as [?|?]
     | |- context [registries_update P ?h ?r ?n ?d] =>
         destruct (registries_update P h r n d) as [?|?]
     | |- context [registries_delete P ?h ?r ?n] =>
         destruct (registries_delete P h r n) as [?|[?|?|?]]
     | |- context [registries_get P ?h ?r ?n] =>
         destruct (registries_get P h r n) as [[?|]|[?|?|?]]
     end);
  simp_calls.

(** The facts below hold on every path of [exec_module]; they are proved
    together, path by path. *)
Lemma run_invariants P kw check :
  let r := reconcile P kw check in
  let tr := calls (snd r) in
  (exists rest, tr = ResourceGroupsGet (param_resource_group kw) :: rest) /\
  (count_calls is_write tr <= 1)%nat /\
  (count_calls is_registry_lookup tr <= 2)%nat /\
  (count_calls is_key_lookup tr <= 1)%nat /\
  (check = true -> count_calls is_write tr = 0%nat) /\
  (param_state kw = absent ->
     count_calls is_create tr = 0%nat /\ count_calls is_update tr = 0%nat /\
     count_calls is_key_lookup tr = 0%nat) /\
  (param_state kw = present -> count_calls is_delete tr = 0%nat) /\
  (check = false -> forall c st,
     fst r = Ok (c, st) -> (c = true <-> count_calls is_write tr = 1%nat)) /\
  (forall c d, fst r = Ok (c, StDict d) -> dict_tags d ≠ Some ∅).
Proof.
  destruct check; unfold_module; explore P.
  all: rewrite ?count_calls_app, ?count_calls_one;
    cbn -[truthy_tags String.append].
  all: split; [eexists; reflexivity |].
  all: repeat split; intros; simplify_eq;
    try lia; try done; try apply normalised_tags_nonempty.
Qed.

(** X11.  Check mode never writes: whatever the request and whatever the
    provider answers, a dry run issues no create, update or delete call. *)
Theorem X11_dry_run_never_writes P kw :
  count_calls is_write (calls (snd (reconcile P kw true))) = 0%nat.
Proof.
  destruct (run_invariants P kw true) as (_ & _ & _ & _ & H & _). by apply H.
Qed.

(** X12.  The call budget of a run.  Every run starts with the
    resource-group lookup and issues at most one write call, at most two
    registry lookups and at most one key lookup, however it ends. *)
Theorem X12_call_budget P kw check :
  (exists rest,
     calls (snd (reconcile P kw check))
     = ResourceGroupsGet (param_resource_group kw) :: rest) /\
  (count_calls is_write (calls (snd (reconcile P kw check))) <= 1)%nat /\
  (count_calls is_registry_lookup (calls (snd (reconcile P kw check))) <= 2)%nat /\
  (count_calls is_key_lookup (calls (snd (reconcile P kw check))) <= 1)%nat.
Proof.
  destruct (run_invariants P kw check) as (H1 & H2 & H3 & H4 & _). done.
Qed.

(** X13.  The calls follow the requested state: a run with state=absent
    never creates, never updates and never lists storage keys; a run with
    state=present never deletes. *)
Theorem X13_calls_follow_state P kw check :
  match param_state kw with
  | absent =>
      count_calls is_create (calls (snd (reconcile P kw check))) = 0%nat /\
      count_calls is_update (calls (snd (reconcile P kw check))) = 0%nat /\
      count_calls is_key_lookup (calls (snd (reconcile P kw check))) = 0%nat
  | present =>
      count_calls is_delete (calls (snd (reconcile P kw check))) = 0%nat
  end.
Proof.
  destruct (run_invariants P kw check) as (_ & _ & _ & _ & _ & Ha & Hp & _).
  destruct (param_state kw); [by apply Hp | by apply Ha].
Qed.

(** X14.  Outside check mode, a run that returns reports [changed = true]
    exactly when it has issued a write call. *)
Theorem X14_changed_iff_write P kw c st :
  fst (reconcile P kw false) = Ok (c, st) ->
  (c = true <-> count_calls is_write (calls (snd (reconcile P kw false))) = 1%nat).
Proof.
  destruct (run_invariants P kw false) as (_ & _ & _ & _ & _ & _ & _ & H & _).
  by apply H.
Qed.

Lemma X14_changed_iff_write_witness :
  fst (reconcile populated_provider delete_params false) = Ok (true, StEmptyDict) /\
  (true = true
   <-> count_calls is_write (calls (snd (reconcile populated_provider delete_params false)))
       = 1%nat).
Proof.
  assert (Hres : fst (reconcile populated_provider delete_params false)
                 = Ok (true, StEmptyDict)) by (vm_compute; reflexivity).
  exact (conj Hres (X14_changed_iff_write populated_provider delete_params _ _ Hres)).
Defined.

(** X15.  Whenever a run returns a registry dictionary as its state, be it
    built from the request or from the registry that was fetched, its
    [tags] entry is null or a non-empty dictionary, never the empty one. *)
Theorem X15_state_tags_never_empty P kw check c d :
  fst (reconcile P kw check) = Ok (c, StDict d) ->
  dict_tags d ≠ Some ∅.
Proof.
  destruct (run_invariants P kw check) as (_ & _ & _ & _ & _ & _ & _ & _ & H).
  by apply H.
Qed.

Lemma X15_state_tags_never_empty_witness :
  param_tags untagged_params = Some ∅ /\
  exists d,
    fst (reconcile empty_provider untagged_params true) = Ok (true, StDict d) /\
    dict_tags d ≠ Some ∅.
Proof.
  split; [reflexivity |].
  eexists. split; [vm_compute; reflexivity |].
  eapply (X15_state_tags_never_empty empty_provider untagged_params true true).
  vm_compute; reflexivity.
Defined.
